(** * vast::hl::HighLevelTypeConverter — a shallow embedding

    The converter of [HighLevelTypeConverter.cpp] maps clang types to the
    types of the high-level dialect.  The clang AST it reads, the two name
    registries it consults and the data-layout table it fills are modelled
    below; the conversion rules follow the C++ member functions one by one. *)

From Stdlib Require Import NArith.
From stdpp Require Import base strings gmap list.

Set Warnings "-register-all".

(** ** The source model: the part of the clang AST the converter observes *)

Module clang.

(** [clang::BuiltinType::Kind], in the order of clang's BuiltinTypes.def.
    Only the kinds up to [Float128] and [NullPtr] are kept; [NullPtr]
    stands for every builtin that is neither void, integer nor floating. *)
Inductive BuiltinKind :=
| Void
| Bool | Char_U | UChar | WChar_U | Char8 | Char16 | Char32
| UShort | UInt | ULong | ULongLong | UInt128
| Char_S | SChar | WChar_S | Short | Int | Long | LongLong | Int128
| Half | Float | Double | LongDouble | Float16 | BFloat16 | Float128
| NullPtr.

(** [clang::Qualifiers], restricted to the two queries the converter makes. *)
Record Qualifiers := mkQualifiers { hasConst : bool; hasVolatile : bool }.

(** Tag declarations live in the AST context and are referred to by id:
    this is what lets a record mention itself through a pointer. *)
Definition DeclId := nat.

(** [clang::Type] and [clang::QualType].  [ElaboratedType], [TypedefType]
    and [ParenType] are sugar; [OtherType] is any canonical type outside
    the six categories the dispatcher knows (vectors, complex, ...). *)
Inductive Type_ :=
| BuiltinType (kind : BuiltinKind)
| PointerType (pointee : QualType)
| RecordType (decl : DeclId)
| EnumType (decl : DeclId)
| ConstantArrayType (element : QualType) (size : N)
| FunctionProtoType (result : QualType) (params : list QualType)
| FunctionNoProtoType (result : QualType)
| ElaboratedType (named : QualType)
| TypedefType (underlying : QualType)
| ParenType (inner : QualType)
| OtherType
with QualType :=
| mkQualType (ty : Type_) (quals : Qualifiers).

Definition getTypePtr (q : QualType) : Type_ :=
  match q with mkQualType ty _ => ty end.

(** [QualType::getLocalQualifiers]: the qualifiers stored on this
    occurrence. *)
Definition getLocalQualifiers (q : QualType) : Qualifiers :=
  match q with mkQualType _ quals => quals end.

Definition addQualifiers (a b : Qualifiers) : Qualifiers :=
  mkQualifiers (hasConst a || hasConst b) (hasVolatile a || hasVolatile b).

(** The qualifiers of the canonical type of a node: those written inside
    the sugar it is made of, and, for an array, those of its element type
    (clang's canonical array types carry their element's qualifiers). *)
Fixpoint canonicalQualifiers (ty : Type_) : Qualifiers :=
  match ty with
  | ElaboratedType (mkQualType t quals)
  | TypedefType (mkQualType t quals)
  | ParenType (mkQualType t quals)
  | ConstantArrayType (mkQualType t quals) _ =>
      addQualifiers (canonicalQualifiers t) quals
  | _ => mkQualifiers false false
  end.

(** [QualType::getQualifiers]: the local qualifiers together with those of
    the canonical type, so qualifiers acquired through a typedef count. *)
Definition getQualifiers (q : QualType) : Qualifiers :=
  match q with mkQualType ty quals => addQualifiers (canonicalQualifiers ty) quals end.

Record FieldDecl := mkFieldDecl { field_getName : string; field_getType : QualType }.

(** [clang::TagDecl]; [fields] is only consulted for records. *)
Record TagDecl := mkTagDecl { getIdentifier : option string; fields : list FieldDecl }.

(** [NamedDecl::getName]: the empty string when there is no identifier. *)
Definition getName (d : TagDecl) : string :=
  match getIdentifier d with Some s => s | None => ""%string end.

Definition ASTContext := DeclId → TagDecl.

(** [Type::getUnqualifiedDesugaredType]: peel sugar until a canonical
    node is reached; the qualifiers met on the way are dropped. *)
Fixpoint getUnqualifiedDesugaredType (ty : Type_) : Type_ :=
  match ty with
  | ElaboratedType (mkQualType t _) => getUnqualifiedDesugaredType t
  | TypedefType (mkQualType t _) => getUnqualifiedDesugaredType t
  | ParenType (mkQualType t _) => getUnqualifiedDesugaredType t
  | _ => ty
  end.

(** The [isXType] predicates look at the canonical type. *)
Definition isFunctionType (ty : Type_) : bool :=
  match getUnqualifiedDesugaredType ty with
  | FunctionProtoType _ _ | FunctionNoProtoType _ => true
  | _ => false
  end.

(** Predicates of [clang::BuiltinType]; clang implements the integer and
    floating ones as range tests over [Kind]. *)
Definition isVoidType (k : BuiltinKind) : bool :=
  match k with Void => true | _ => false end.
Definition isBooleanType (k : BuiltinKind) : bool :=
  match k with Bool => true | _ => false end.
Definition isUnsignedIntegerType (k : BuiltinKind) : bool :=
  match k with
  | Bool | Char_U | UChar | WChar_U | Char8 | Char16 | Char32
  | UShort | UInt | ULong | ULongLong | UInt128 => true
  | _ => false
  end.
Definition isIntegerType (k : BuiltinKind) : bool :=
  match k with
  | Bool | Char_U | UChar | WChar_U | Char8 | Char16 | Char32
  | UShort | UInt | ULong | ULongLong | UInt128
  | Char_S | SChar | WChar_S | Short | Int | Long | LongLong | Int128 => true
  | _ => false
  end.
Definition isFloatingType (k : BuiltinKind) : bool :=
  match k with
  | Half | Float | Double | LongDouble | Float16 | BFloat16 | Float128 => true
  | _ => false
  end.

(** [dyn_cast<ElaboratedType>] and [dyn_cast<TagType>] on a [QualType]:
    a test on the node itself, with no desugaring. *)
Definition dyn_cast_Elaborated (q : QualType) : option QualType :=
  match getTypePtr q with ElaboratedType named => Some named | _ => None end.
Definition dyn_cast_Tag (q : QualType) : option DeclId :=
  match getTypePtr q with
  | RecordType d | EnumType d => Some d
  | _ => None
  end.

End clang.

(** ** The target model: types of the high-level dialect *)

Module hl.

Inductive IntegerKind := Char | Short | Int | Long | LongLong | Int128.
Inductive FloatingKind := Half | BFloat16 | Float | Double | LongDouble | Float128.

(** Modelled from the spec: the type constructors of HighLevelTypes.hpp
    (not under src/), with the parameters of the [::get] calls the
    converter makes.  MLIR types are uniqued, so equality is structural. *)
Inductive Type_ :=
| VoidType
| BoolType (c v : bool)
| CharType (u c v : bool)
| ShortType (u c v : bool)
| IntType (u c v : bool)
| LongType (u c v : bool)
| LongLongType (u c v : bool)
| Int128Type (u c v : bool)
| HalfType (c v : bool)
| BFloat16Type (c v : bool)
| FloatType (c v : bool)
| DoubleType (c v : bool)
| LongDoubleType (c v : bool)
| Float128Type (c v : bool)
| PointerType (element : Type_) (c v : bool)
| ConstantArrayType (element : Type_) (size : N) (c v : bool)
| RecordType (fields : list (string * Type_))
| NamedType (name : string)
| FunctionType (args : list Type_) (result : Type_).

Definition FieldInfo : Type := string * Type_.

Definition Type_eq_dec : ∀ a b : Type_, {a = b} + {a ≠ b}.
Proof.
  fix IH 1. intros a b.
  decide equality;
    try solve [ apply bool_eq_dec | apply N.eq_dec | apply String.eq_dec ].
  - apply (@list_eq_dec _ (@prod_eq_dec _ String.eq_dec _ IH)).
  - apply (@list_eq_dec _ IH).
Defined.

#[global] Instance Type_eq_decision : EqDecision Type_ := Type_eq_dec.

(** Observers used to state properties of produced types. *)

(** The const/volatile slots of the outermost node, when it has any. *)
Definition outer_quals (t : Type_) : option (bool * bool) :=
  match t with
  | BoolType c v
  | CharType _ c v | ShortType _ c v | IntType _ c v
  | LongType _ c v | LongLongType _ c v | Int128Type _ c v
  | HalfType c v | BFloat16Type c v | FloatType c v
  | DoubleType c v | LongDoubleType c v | Float128Type c v
  | PointerType _ c v | ConstantArrayType _ _ c v => Some (c, v)
  | VoidType | RecordType _ | NamedType _ | FunctionType _ _ => None
  end.


Definition integer_kind (t : Type_) : option IntegerKind :=
  match t with
  | CharType _ _ _ => Some Char
  | ShortType _ _ _ => Some Short
  | IntType _ _ _ => Some Int
  | LongType _ _ _ => Some Long
  | LongLongType _ _ _ => Some LongLong
  | Int128Type _ _ _ => Some Int128
  | _ => None
  end.

Definition unsigned_bit (t : Type_) : option bool :=
  match t with
  | CharType u _ _ | ShortType u _ _ | IntType u _ _
  | LongType u _ _ | LongLongType u _ _ | Int128Type u _ _ => Some u
  | _ => None
  end.

Definition is_function (t : Type_) : bool :=
  match t with FunctionType _ _ => true | _ => false end.

End hl.

(** ** Outcomes and the converter's monad *)

(** The failures of the converter.  [UNREACHABLE] and a failed [CHECK]
    stop the process; the constructor records which message was hit. *)
Inductive Error :=
| UnknownIntegerKind        (* "unknown integer kind" *)
| UnknownFloatingKind       (* "unknown floating kind" *)
| UnknownBuiltinKind        (* "unknown builtin type: ..." *)
| UnknownTypeKind           (* "unknown clang type: ..." *)
| AnonymousRecord           (* "anonymous records not supported yet" *)
| AnonymousEnum             (* "anonymous enums not supported yet" *)
| DeclarationOrderViolation (* "error: to define type it needs to be declared first" *).

(** [OutOfFuel] is not an outcome of the program: it marks a run of the
    model that was cut before the C++ recursion came back. *)
Inductive Result (A : Type) :=
| Ok (a : A)
| Abort (e : Error)
| OutOfFuel.
Arguments Ok {A} a.
Arguments Abort {A} e.
Arguments OutOfFuel {A}.

(** Modelled from the spec: the table behind [ctx.data_layout()] (declared
    outside src/), a map from produced type to the layout entry built from
    the source type it was first produced for.  Kept as an association
    list so that a duplicated key would be visible. *)
Abbreviation DataLayout := (list (hl.Type_ * clang.Type_)).

Definition dl_count (k : hl.Type_) (dl : DataLayout) : nat :=
  length (filter (λ e, e.1 = k) dl).

(** [try_emplace]: insert only when the key is absent. *)
Definition try_emplace (k : hl.Type_) (v : clang.Type_) (dl : DataLayout) : DataLayout :=
  if bool_decide (k ∈ dl.*1) then dl else dl ++ [(k, v)].

(** State (the data layout) and failure, threaded as the C++ does. *)
Definition M (A : Type) : Type := DataLayout → Result A * DataLayout.

#[global] Instance M_ret : MRet M := λ A a dl, (Ok a, dl).
#[global] Instance M_bind : MBind M := λ A B f m dl,
  match m dl with
  | (Ok a, dl') => f a dl'
  | (Abort e, dl') => (Abort e, dl')
  | (OutOfFuel, dl') => (OutOfFuel, dl')
  end.

Definition abort {A} (e : Error) : M A := λ dl, (Abort e, dl).
Definition out_of_fuel {A} : M A := λ dl, (OutOfFuel, dl).
Definition lift {A} (r : Result A) : M A := λ dl, (r, dl).
Definition data_layout_try_emplace (k : hl.Type_) (v : clang.Type_) : M unit :=
  λ dl, (Ok tt, try_emplace k v dl).

(** ** The translation context *)

(** The part of [TranslationContext] the converter reads.  [type_decls]
    and [type_defs] are the name-keyed tables of declared and defined
    types; only [count] is called on them, so a set of names is kept. *)
Record TranslationContext := mkContext {
  getASTContext : clang.ASTContext;
  type_decls : gset string;
  type_defs : gset string
}.

Definition count (name : string) (table : gset string) : bool :=
  bool_decide (name ∈ table).

(** ** Classification of builtin kinds *)

Definition get_integer_kind (k : clang.BuiltinKind) : Result hl.IntegerKind :=
  match k with
  | clang.Char_U | clang.UChar | clang.Char_S | clang.SChar => Ok hl.Char
  | clang.Short | clang.UShort => Ok hl.Short
  | clang.Int | clang.UInt => Ok hl.Int
  | clang.Long | clang.ULong => Ok hl.Long
  | clang.LongLong | clang.ULongLong => Ok hl.LongLong
  | clang.Int128 | clang.UInt128 => Ok hl.Int128
  | _ => Abort UnknownIntegerKind
  end.

Definition get_floating_kind (k : clang.BuiltinKind) : Result hl.FloatingKind :=
  match k with
  | clang.Half | clang.Float16 => Ok hl.Half
  | clang.BFloat16 => Ok hl.BFloat16
  | clang.Float => Ok hl.Float
  | clang.Double => Ok hl.Double
  | clang.LongDouble => Ok hl.LongDouble
  | clang.Float128 => Ok hl.Float128
  | _ => Abort UnknownFloatingKind
  end.

(** ** The conversion rules *)

Section Rules.

Variable ctx : TranslationContext.

(** [convert(clang::QualType)]: every rule recurses through it. *)
Variable convert_QualType : clang.QualType → M hl.Type_.

Definition do_convert_Builtin (ty : clang.BuiltinKind) (quals : clang.Qualifiers)
  : M hl.Type_ :=
  let v := clang.hasVolatile quals in
  let c := clang.hasConst quals in
  if clang.isVoidType ty then mret hl.VoidType
  else if clang.isBooleanType ty then mret (hl.BoolType c v)
  else if clang.isIntegerType ty then
    let u := clang.isUnsignedIntegerType ty in
    kind ← lift (get_integer_kind ty);
    mret (match kind with
          | hl.Char => hl.CharType u c v
          | hl.Short => hl.ShortType u c v
          | hl.Int => hl.IntType u c v
          | hl.Long => hl.LongType u c v
          | hl.LongLong => hl.LongLongType u c v
          | hl.Int128 => hl.Int128Type u c v
          end)
  else if clang.isFloatingType ty then
    kind ← lift (get_floating_kind ty);
    mret (match kind with
          | hl.Half => hl.HalfType c v
          | hl.BFloat16 => hl.BFloat16Type c v
          | hl.Float => hl.FloatType c v
          | hl.Double => hl.DoubleType c v
          | hl.LongDouble => hl.LongDoubleType c v
          | hl.Float128 => hl.Float128Type c v
          end)
  else abort UnknownBuiltinKind.

(** The first lambda of the pointer rule: one elaborated wrapper is
    replaced by the type it names. *)
Definition unwrap_pointee (p : clang.QualType) : clang.QualType :=
  match clang.dyn_cast_Elaborated p with
  | Some named => named
  | None => p
  end.

(** The name test of the second lambda: [Some name] when the pointee is
    a tag type whose name is in [type_decls]. *)
Definition declared_tag (pointee : clang.QualType) : option string :=
  match clang.dyn_cast_Tag pointee with
  | Some tag =>
      let tag_name := clang.getName (getASTContext ctx tag) in
      if count tag_name (type_decls ctx) then Some tag_name else None
  | None => None
  end.

Definition do_convert_Pointer (ty_pointee : clang.QualType) (quals : clang.Qualifiers)
  : M hl.Type_ :=
  let pointee := unwrap_pointee ty_pointee in
  converted_pointee ←
    match declared_tag pointee with
    | Some tag_name => mret (hl.NamedType tag_name)
    | None => convert_QualType pointee
    end;
  mret (hl.PointerType converted_pointee (clang.hasConst quals) (clang.hasVolatile quals)).

(** The loop over [decl->fields()], with [fields] as accumulator. *)
Fixpoint convert_fields (fs : list clang.FieldDecl) (fields : list hl.FieldInfo)
  : M (list hl.FieldInfo) :=
  match fs with
  | [] => mret fields
  | field :: rest =>
      let field_name := clang.field_getName field in
      field_type ← convert_QualType (clang.field_getType field);
      convert_fields rest (fields ++ [(field_name, field_type)])
  end.

Definition do_convert_Record (ty_decl : clang.DeclId) (quals : clang.Qualifiers)
  : M hl.Type_ :=
  let decl := getASTContext ctx ty_decl in
  match clang.getIdentifier decl with
  | None => abort AnonymousRecord
  | Some _ =>
      let name := clang.getName decl in
      if negb (count name (type_defs ctx)) then
        if count name (type_decls ctx) then
          fields ← convert_fields (clang.fields decl) [];
          mret (hl.RecordType fields)
        else abort DeclarationOrderViolation
      else mret (hl.NamedType name)
  end.

Definition do_convert_Enum (ty_decl : clang.DeclId) (quals : clang.Qualifiers)
  : M hl.Type_ :=
  let decl := getASTContext ctx ty_decl in
  match clang.getIdentifier decl with
  | None => abort AnonymousEnum
  | Some _ => mret (hl.NamedType (clang.getName decl))
  end.

Definition do_convert_ConstantArray (element : clang.QualType) (size : N)
    (quals : clang.Qualifiers) : M hl.Type_ :=
  element_type ← convert_QualType element;
  mret (hl.ConstantArrayType element_type size
          (clang.hasConst quals) (clang.hasVolatile quals)).

(** The loop over [prototype->getParamTypes()]. *)
Fixpoint convert_params (ps : list clang.QualType) (args : list hl.Type_)
  : M (list hl.Type_) :=
  match ps with
  | [] => mret args
  | param :: rest =>
      a ← convert_QualType param;
      convert_params rest (args ++ [a])
  end.

(** [convert(const clang::FunctionType* )]; the last case is never
    reached from [do_convert], which casts function types only. *)
Definition convert_FunctionType (ty : clang.Type_) : M hl.Type_ :=
  match ty with
  | clang.FunctionProtoType result params =>
      args ← convert_params params [];
      rty ← convert_QualType result;
      mret (hl.FunctionType args rty)
  | clang.FunctionNoProtoType result =>
      rty ← convert_QualType result;
      mret (hl.FunctionType [] rty)
  | _ => abort UnknownTypeKind
  end.

(** [do_convert(const clang::Type*, Quals)]: desugar, then dispatch. *)
Definition do_convert (ty : clang.Type_) (quals : clang.Qualifiers) : M hl.Type_ :=
  match clang.getUnqualifiedDesugaredType ty with
  | clang.BuiltinType k => do_convert_Builtin k quals
  | clang.PointerType pointee => do_convert_Pointer pointee quals
  | clang.RecordType d => do_convert_Record d quals
  | clang.EnumType d => do_convert_Enum d quals
  | clang.ConstantArrayType element size => do_convert_ConstantArray element size quals
  | (clang.FunctionProtoType _ _ | clang.FunctionNoProtoType _) as fty =>
      convert_FunctionType fty
  | _ => abort UnknownTypeKind
  end.

Definition dl_aware_convert (ty : clang.Type_) (quals : clang.Qualifiers) : M hl.Type_ :=
  out ← do_convert ty quals;
  if negb (clang.isFunctionType ty)
  then _ ← data_layout_try_emplace out ty; mret out
  else mret out.

(** [convert(const clang::Type*, Quals)], the public entry point. *)
Definition convert (ty : clang.Type_) (quals : clang.Qualifiers) : M hl.Type_ :=
  dl_aware_convert ty quals.

End Rules.

(** The recursion of the C++ is closed with a bound on the nesting depth of
    [convert(QualType)] calls (the converter can run forever on some type
    graphs, so no structural measure exists). *)
Fixpoint convert_QualType (fuel : nat) (ctx : TranslationContext) (ty : clang.QualType)
  : M hl.Type_ :=
  match fuel with
  | 0 => out_of_fuel
  | S n => convert ctx (convert_QualType n ctx) (clang.getTypePtr ty) (clang.getQualifiers ty)
  end.

(** A top-level call [convert(ty, quals)] whose nested calls may go [fuel] deep. *)
Definition convert_Type (fuel : nat) (ctx : TranslationContext)
    (ty : clang.Type_) (quals : clang.Qualifiers) : M hl.Type_ :=
  convert ctx (convert_QualType fuel ctx) ty quals.

(** ** Vocabulary of the statements *)

Definition quals_of (c v : bool) : clang.Qualifiers := clang.mkQualifiers c v.


(** The keys of the data-layout table. *)
Definition dl_keys (dl : DataLayout) : list hl.Type_ := dl.*1.

(** A run of [try_emplace] calls, oldest first. *)
Definition emplace_all (log : DataLayout) (dl : DataLayout) : DataLayout :=
  fold_left (λ acc e, try_emplace e.1 e.2 acc) log dl.

(** The effect of a computation on the table is a fixed run of
    [try_emplace] calls on keys that are not function types, and its
    outcome does not depend on the table. *)
Definition replays {A} (m : M A) : Prop :=
  ∃ r log, (∀ dl, m dl = (r, emplace_all log dl))
           ∧ Forall (λ e, hl.is_function e.1 = false) log.

(** A call that comes back with a type, whatever the table holds. *)
Definition converges (cv : clang.QualType → M hl.Type_) (ty : clang.QualType) : Prop :=
  ∀ dl, ∃ t dl', cv ty dl = (Ok t, dl').

(** [cv] can produce [t] for [ty]. *)
Definition converts_to (cv : clang.QualType → M hl.Type_)
    (ty : clang.QualType) (t : hl.Type_) : Prop :=
  ∃ dl dl', cv ty dl = (Ok t, dl').

(** A pointer whose pointee is the tag type [d] itself, written with or
    without the elaborated keyword ([struct S *]). *)
Definition points_to_tag (d : clang.DeclId) (ty : clang.QualType) : Prop :=
  ∃ qp pq,
    clang.getTypePtr ty = clang.PointerType qp
    ∧ (qp = clang.mkQualType (clang.RecordType d) pq
       ∨ ∃ eq_, qp = clang.mkQualType
                        (clang.ElaboratedType (clang.mkQualType (clang.RecordType d) eq_)) pq).

(** Scenario C: [struct S { struct S *next; };]. *)
Module ScenarioC.
Definition none : clang.Qualifiers := quals_of false false.
Definition S_type : clang.Type_ := clang.RecordType 0.
Definition S_ptr : clang.QualType :=
  clang.mkQualType
    (clang.PointerType
       (clang.mkQualType (clang.ElaboratedType (clang.mkQualType S_type none)) none))
    none.
Definition S_decl : clang.TagDecl :=
  clang.mkTagDecl (Some "S"%string) [clang.mkFieldDecl "next"%string S_ptr].
Definition ast : clang.ASTContext := λ _, S_decl.
(** [S] declared, not yet defined. *)
Definition declared : TranslationContext := mkContext ast {["S"%string]} ∅.
(** [S] neither declared nor defined. *)
Definition undeclared : TranslationContext := mkContext ast ∅ ∅.
(** [S] declared and defined. *)
Definition defined : TranslationContext := mkContext ast {["S"%string]} {["S"%string]}.
End ScenarioC.

(** The list node written with a typedef:
    [typedef struct S S_t; struct S { S_t *next; };], [S] declared. *)
Module TypedefNode.
Definition none : clang.Qualifiers := quals_of false false.
Definition S_type : clang.Type_ := clang.RecordType 0.
Definition S_t : clang.QualType :=
  clang.mkQualType (clang.TypedefType (clang.mkQualType S_type none)) none.
Definition S_decl : clang.TagDecl :=
  clang.mkTagDecl (Some "S"%string)
    [clang.mkFieldDecl "next"%string (clang.mkQualType (clang.PointerType S_t) none)].
Definition declared : TranslationContext := mkContext (λ _, S_decl) {["S"%string]} ∅.
End TypedefNode.

(** Scenarios A, D and E of the specification. *)
Module Scenarios.
Definition none : clang.Qualifiers := quals_of false false.
Definition no_tags : TranslationContext := mkContext (λ _, clang.mkTagDecl None []) ∅ ∅.
Definition int_ : clang.QualType := clang.mkQualType (clang.BuiltinType clang.Int) none.
Definition double_4 : clang.Type_ :=
  clang.ConstantArrayType (clang.mkQualType (clang.BuiltinType clang.Double) none) 4.
Definition const_char_ptr : clang.QualType :=
  clang.mkQualType
    (clang.PointerType (clang.mkQualType (clang.BuiltinType clang.Char_S) (quals_of true false)))
    none.
Definition int_of_int_and_string : clang.Type_ :=
  clang.FunctionProtoType int_ [int_; const_char_ptr].
End Scenarios.

(** ** Further vocabulary *)

(** The floating class of a produced type, when it is a floating type. *)
Definition floating_kind_of (t : hl.Type_) : option hl.FloatingKind :=
  match t with
  | hl.HalfType _ _ => Some hl.Half
  | hl.BFloat16Type _ _ => Some hl.BFloat16
  | hl.FloatType _ _ => Some hl.Float
  | hl.DoubleType _ _ => Some hl.Double
  | hl.LongDoubleType _ _ => Some hl.LongDouble
  | hl.Float128Type _ _ => Some hl.Float128
  | _ => None
  end.

(** Builtin kinds that the classification switches merge: plain [char]
    with the explicitly signed or unsigned one, and the two half floats. *)
Definition merged_builtins (k1 k2 : clang.BuiltinKind) : bool :=
  match k1, k2 with
  | clang.Char_U, clang.UChar | clang.UChar, clang.Char_U
  | clang.Char_S, clang.SChar | clang.SChar, clang.Char_S
  | clang.Half, clang.Float16 | clang.Float16, clang.Half => true
  | _, _ => false
  end.

(** The canonical kinds whose rule passes the caller's qualifiers on to
    the node it builds. *)
Definition carries_quals (canonical : clang.Type_) : bool :=
  match canonical with
  | clang.BuiltinType k => negb (clang.isVoidType k)
  | clang.PointerType _ | clang.ConstantArrayType _ _ => true
  | _ => false
  end.

#[global] Instance IntegerKind_eq_dec : EqDecision hl.IntegerKind.
Proof. solve_decision. Defined.
#[global] Instance FloatingKind_eq_dec : EqDecision hl.FloatingKind.
Proof. solve_decision. Defined.
#[global] Instance Error_eq_dec : EqDecision Error.
Proof. solve_decision. Defined.
#[global] Instance Result_eq_dec {A} `{EqDecision A} : EqDecision (Result A).
Proof. solve_decision. Defined.

(** The node that each canonical type allows.  A builtin allows void or
    bool for itself, the integer type of its width class with its own
    unsignedness, or the floating type of its class.  A pointer allows a
    pointer, to [NamedType name] when the name test of the pointer rule
    succeeds.  A record allows [NamedType] of its name when the name is
    defined and otherwise a record type with the declared field names in
    order; an enum allows [NamedType] of its name.  An array allows an
    array of the same bound; a function type allows a function type with
    one argument per prototype parameter, none without a prototype. *)
Definition node_matches (ctx : TranslationContext)
    (canonical : clang.Type_) (t : hl.Type_) : bool :=
  match canonical with
  | clang.BuiltinType k =>
      match t with
      | hl.VoidType => clang.isVoidType k
      | hl.BoolType _ _ => clang.isBooleanType k
      | _ =>
          match hl.integer_kind t, floating_kind_of t with
          | Some ik, _ =>
              bool_decide (get_integer_kind k = Ok ik)
              && bool_decide (hl.unsigned_bit t = Some (clang.isUnsignedIntegerType k))
          | None, Some fk => bool_decide (get_floating_kind k = Ok fk)
          | None, None => false
          end
      end
  | clang.PointerType p =>
      match t with
      | hl.PointerType element _ _ =>
          match declared_tag ctx (unwrap_pointee p) with
          | Some name => bool_decide (element = hl.NamedType name)
          | None => true
          end
      | _ => false
      end
  | clang.RecordType d =>
      let decl := getASTContext ctx d in
      match t with
      | hl.RecordType fields =>
          negb (count (clang.getName decl) (type_defs ctx))
          && bool_decide (fields.*1 = clang.field_getName <$> clang.fields decl)
      | hl.NamedType name =>
          count (clang.getName decl) (type_defs ctx)
          && bool_decide (name = clang.getName decl)
      | _ => false
      end
  | clang.EnumType d =>
      match t with
      | hl.NamedType name => bool_decide (name = clang.getName (getASTContext ctx d))
      | _ => false
      end
  | clang.ConstantArrayType _ n =>
      match t with
      | hl.ConstantArrayType _ m _ _ => bool_decide (n = m)
      | _ => false
      end
  | clang.FunctionProtoType _ ps =>
      match t with
      | hl.FunctionType args _ => bool_decide (length args = length ps)
      | _ => false
      end
  | clang.FunctionNoProtoType _ =>
      match t with
      | hl.FunctionType args _ => bool_decide (args = [])
      | _ => false
      end
  | _ => false
  end.

(** The entry stored under a key: the first one, as in a map. *)
Fixpoint dl_lookup (k : hl.Type_) (dl : DataLayout) : option clang.Type_ :=
  match dl with
  | [] => None
  | (k', v) :: rest => if decide (k' = k) then Some v else dl_lookup k rest
  end.

(** [m2] gives every definite outcome of [m1]: whenever [m1] comes back
    with a type or a failure, [m2] does the same on the same table. *)
Definition refines {A} (m1 m2 : M A) : Prop :=
  ∀ dl r dl', m1 dl = (r, dl') → r ≠ OutOfFuel → m2 dl = (r, dl').

(** [levels] further pointer levels on top of [base], outermost first:
    with [base] a [T *], one level gives [T **]. *)
Fixpoint pointers_to (levels : list clang.Qualifiers) (base : clang.QualType)
  : clang.QualType :=
  match levels with
  | [] => base
  | qs :: rest => clang.mkQualType (clang.PointerType (pointers_to rest base)) qs
  end.

(** The same levels on the produced side. *)
Fixpoint hl_pointers_to (levels : list clang.Qualifiers) (base : hl.Type_) : hl.Type_ :=
  match levels with
  | [] => base
  | qs :: rest =>
      hl.PointerType (hl_pointers_to rest base) (clang.hasConst qs) (clang.hasVolatile qs)
  end.

(** [struct V { <vector> v; };] with [V] declared: a record whose only
    field has a type outside the six supported categories. *)
Module UnsupportedField.
Definition none : clang.Qualifiers := quals_of false false.
Definition V_type : clang.Type_ := clang.RecordType 0.
Definition V_decl : clang.TagDecl :=
  clang.mkTagDecl (Some "V"%string)
    [clang.mkFieldDecl "v"%string (clang.mkQualType clang.OtherType none)].
Definition declared : TranslationContext := mkContext (λ _, V_decl) {["V"%string]} ∅.
End UnsupportedField.

(** Declarations used to run the rules on concrete inputs. *)
Module Samples.
Definition none : clang.Qualifiers := quals_of false false.
Definition anonymous : clang.TagDecl := clang.mkTagDecl None [].
Definition State : clang.TagDecl := clang.mkTagDecl (Some "State"%string) [].
(** [struct Element { int z; enum State state; }], with [State] at id 1. *)
Definition Element : clang.TagDecl :=
  clang.mkTagDecl (Some "Element"%string)
    [clang.mkFieldDecl "z"%string (clang.mkQualType (clang.BuiltinType clang.Int) none);
     clang.mkFieldDecl "state"%string
       (clang.mkQualType (clang.ElaboratedType (clang.mkQualType (clang.EnumType 1) none))
          none)].
(** [struct Opaque;], a forward declaration, at id 3. *)
Definition Opaque_ : clang.TagDecl := clang.mkTagDecl (Some "Opaque"%string) [].
Definition ast : clang.ASTContext :=
  λ d, match d with 0 => Element | 1 => State | 3 => Opaque_ | _ => anonymous end.
(** Nothing registered. *)
Definition empty : TranslationContext := mkContext ast ∅ ∅.
(** [Element], [State] and [Opaque] declared, nothing defined. *)
Definition declared : TranslationContext :=
  mkContext ast {["Element"%string; "State"%string; "Opaque"%string]} ∅.
(** The empty name registered as declared. *)
Definition empty_name_declared : TranslationContext := mkContext ast {[""%string]} ∅.
Definition const_int : clang.QualType :=
  clang.mkQualType (clang.BuiltinType clang.Int) (quals_of true false).
(** [typedef const int cint;] *)
Definition cint : clang.Type_ := clang.TypedefType const_int.
Definition ptr_to (t : clang.Type_) : clang.Type_ :=
  clang.PointerType (clang.mkQualType t none).
End Samples.

(** * Properties *)

(** ** The monad *)

Lemma bind_Ok {A B} (m : M A) (f : A → M B) dl a dl1 :
  m dl = (Ok a, dl1) → (m ≫= f) dl = f a dl1.
Proof. intros H. unfold mbind, M_bind. by rewrite H. Qed.

Lemma bind_Abort {A B} (m : M A) (f : A → M B) dl e dl1 :
  m dl = (Abort e, dl1) → (m ≫= f) dl = (Abort e, dl1).
Proof. intros H. unfold mbind, M_bind. by rewrite H. Qed.

Lemma bind_OutOfFuel {A B} (m : M A) (f : A → M B) dl dl1 :
  m dl = (OutOfFuel, dl1) → (m ≫= f) dl = (OutOfFuel, dl1).
Proof. intros H. unfold mbind, M_bind. by rewrite H. Qed.

Lemma bind_Ok_inv {A B} (m : M A) (f : A → M B) dl b dl' :
  (m ≫= f) dl = (Ok b, dl') → ∃ a dl1, m dl = (Ok a, dl1) ∧ f a dl1 = (Ok b, dl').
Proof.
  unfold mbind, M_bind. destruct (m dl) as [[a|e|] dl1]; intros H; try discriminate.
  by exists a, dl1.
Qed.

(** Unfold the monad operations in the goal and in every hypothesis. *)
Ltac unfold_M :=
  unfold mbind, M_bind, mret, M_ret, abort, out_of_fuel, lift,
    data_layout_try_emplace in *.

(** ** The data-layout table *)

Lemma count_true name (table : gset string) : count name table = true ↔ name ∈ table.
Proof. unfold count. apply bool_decide_eq_true. Qed.

Lemma count_false name (table : gset string) : count name table = false ↔ name ∉ table.
Proof. unfold count. apply bool_decide_eq_false. Qed.

Lemma try_emplace_present k v dl : k ∈ dl_keys dl → try_emplace k v dl = dl.
Proof. intros H. unfold try_emplace, dl_keys in *. by rewrite bool_decide_eq_true_2. Qed.

Lemma try_emplace_absent k v dl : k ∉ dl_keys dl → try_emplace k v dl = dl ++ [(k, v)].
Proof. intros H. unfold try_emplace, dl_keys in *. by rewrite bool_decide_eq_false_2. Qed.

Lemma elem_of_try_emplace k' k v dl :
  k' ∈ dl_keys (try_emplace k v dl) ↔ k' = k ∨ k' ∈ dl_keys dl.
Proof.
  destruct (decide (k ∈ dl_keys dl)) as [Hin|Hout].
  - rewrite try_emplace_present by done. split; [by right|].
    intros [->|?]; done.
  - rewrite try_emplace_absent by done. unfold dl_keys.
    rewrite fmap_app, elem_of_app. simpl. rewrite list_elem_of_singleton. tauto.
Qed.

Lemma try_emplace_key k v dl : k ∈ dl_keys (try_emplace k v dl).
Proof. apply elem_of_try_emplace. by left. Qed.

Lemma try_emplace_idem k v dl :
  try_emplace k v (try_emplace k v dl) = try_emplace k v dl.
Proof. apply try_emplace_present, try_emplace_key. Qed.

Lemma try_emplace_NoDup k v dl : NoDup (dl_keys dl) → NoDup (dl_keys (try_emplace k v dl)).
Proof.
  intros Hnd. destruct (decide (k ∈ dl_keys dl)) as [Hin|Hout].
  - by rewrite try_emplace_present.
  - rewrite try_emplace_absent by done. unfold dl_keys in *.
    rewrite fmap_app. apply NoDup_app. split; [done|]. split.
    + intros x Hx Hk. simpl in Hk. apply list_elem_of_singleton in Hk. by subst.
    + simpl. apply NoDup_singleton.
Qed.

Lemma dl_count_absent k dl : k ∉ dl_keys dl → dl_count k dl = 0.
Proof.
  unfold dl_count, dl_keys. induction dl as [|[k0 v0] dl IH]; [done|].
  rewrite fmap_cons, not_elem_of_cons. intros [Hne Hout].
  rewrite filter_cons_False by (simpl in *; congruence). by apply IH.
Qed.

Lemma dl_count_NoDup k dl : NoDup (dl_keys dl) → k ∈ dl_keys dl → dl_count k dl = 1.
Proof.
  unfold dl_count, dl_keys. induction dl as [|[k0 v0] dl IH].
  - intros _ H. by apply elem_of_nil in H.
  - rewrite fmap_cons, NoDup_cons. cbn [fst]. intros [Hfresh Hnd] Hin.
    destruct (decide (k0 = k)) as [->|Hne].
    + rewrite filter_cons_True by done. simpl. f_equal.
      by apply dl_count_absent.
    + rewrite filter_cons_False by done. apply IH; [done|].
      apply elem_of_cons in Hin as [?|?]; [congruence|done].
Qed.

Lemma dl_count_try_emplace_other k k' v dl :
  k ≠ k' → dl_count k (try_emplace k' v dl) = dl_count k dl.
Proof.
  intros Hne. unfold try_emplace. case_bool_decide; [done|].
  unfold dl_count. rewrite filter_app, length_app.
  rewrite filter_cons_False by (simpl; congruence). simpl. lia.
Qed.

(** ** Builtin types *)

(** C6 — Builtin integer conversion classifies by width class and reads
    unsignedness as a separate bit.  [const unsigned long] converts to the
    Long type with unsigned and const set and volatile clear; the four char
    builtins all classify as [Char], and differ in the unsigned bit only;
    in general an integer builtin of kind [kind] becomes the type of that
    kind carrying the source's unsignedness and the caller's qualifiers. *)
Theorem builtin_integer_classification :
  (∀ fuel ctx dl,
      convert_QualType (S fuel) ctx
        (clang.mkQualType (clang.BuiltinType clang.ULong) (quals_of true false)) dl
      = (Ok (hl.LongType true true false),
         try_emplace (hl.LongType true true false) (clang.BuiltinType clang.ULong) dl))
  ∧ (∀ k, k ∈ [clang.Char_U; clang.UChar; clang.Char_S; clang.SChar] →
          get_integer_kind k = Ok hl.Char)
  ∧ (∀ q dl,
        let c := clang.hasConst q in
        let v := clang.hasVolatile q in
        do_convert_Builtin clang.Char_U q dl = (Ok (hl.CharType true c v), dl)
        ∧ do_convert_Builtin clang.UChar q dl = (Ok (hl.CharType true c v), dl)
        ∧ do_convert_Builtin clang.Char_S q dl = (Ok (hl.CharType false c v), dl)
        ∧ do_convert_Builtin clang.SChar q dl = (Ok (hl.CharType false c v), dl))
  ∧ (∀ k kind q dl,
        get_integer_kind k = Ok kind →
        ∃ t, do_convert_Builtin k q dl = (Ok t, dl)
             ∧ hl.integer_kind t = Some kind
             ∧ hl.unsigned_bit t = Some (clang.isUnsignedIntegerType k)
             ∧ hl.outer_quals t = Some (clang.hasConst q, clang.hasVolatile q)).
Proof.
  split; [|split; [|split]].
  - intros fuel ctx dl. reflexivity.
  - intros k Hk. repeat (apply elem_of_cons in Hk as [->|Hk]; [reflexivity|]).
    by apply elem_of_nil in Hk.
  - intros q dl. cbn. repeat split.
  - intros k kind q dl Hk.
    destruct k; simpl in Hk; try discriminate;
      injection Hk as <-; eexists; (split; [reflexivity|]); repeat split.
Qed.

Lemma builtin_integer_classification_witness :
  get_integer_kind clang.SChar = Ok hl.Char
  ∧ ∃ t, do_convert_Builtin clang.UShort (quals_of false true) [] = (Ok t, [])
         ∧ hl.integer_kind t = Some hl.Short
         ∧ hl.unsigned_bit t = Some true
         ∧ hl.outer_quals t = Some (false, true).
Proof.
  destruct builtin_integer_classification as (_ & Hchar & _ & Hgen).
  split.
  - apply Hchar. repeat constructor.
  - apply (Hgen clang.UShort hl.Short (quals_of false true) []). reflexivity.
Defined.

(** ** Enums *)

(** C7 — Enum conversion stops on an anonymous enum; a named enum always
    becomes [NamedType name]: the result does not depend on the qualifiers,
    on the recursive entry point or on what the declaration contains. *)
Theorem enum_conversion ctx cv ty d q dl :
  clang.getUnqualifiedDesugaredType ty = clang.EnumType d →
  (clang.getIdentifier (getASTContext ctx d) = None →
     do_convert ctx cv ty q dl = (Abort AnonymousEnum, dl))
  ∧ (∀ name, clang.getIdentifier (getASTContext ctx d) = Some name →
       do_convert ctx cv ty q dl = (Ok (hl.NamedType name), dl)
       ∧ hl.outer_quals (hl.NamedType name) = None).
Proof.
  intros Hty. unfold do_convert, do_convert_Enum, clang.getName. rewrite Hty.
  split.
  - intros ->. reflexivity.
  - intros name ->. split; reflexivity.
Qed.

Lemma enum_conversion_witness :
  do_convert (mkContext (λ _, clang.mkTagDecl None []) ∅ ∅) (λ _, out_of_fuel)
    (clang.EnumType 0) (quals_of true true) [] = (Abort AnonymousEnum, [])
  ∧ do_convert (mkContext (λ _, clang.mkTagDecl (Some "State"%string) []) ∅ ∅)
      (λ _, out_of_fuel)
      (clang.ElaboratedType (clang.mkQualType (clang.EnumType 0) (quals_of false false)))
      (quals_of true true) []
    = (Ok (hl.NamedType "State"%string), []).
Proof.
  split.
  - apply (enum_conversion (mkContext (λ _, clang.mkTagDecl None []) ∅ ∅)
             (λ _, out_of_fuel) (clang.EnumType 0) 0 (quals_of true true) []);
      reflexivity.
  - apply (enum_conversion
             (mkContext (λ _, clang.mkTagDecl (Some "State"%string) []) ∅ ∅)
             (λ _, out_of_fuel)
             (clang.ElaboratedType (clang.mkQualType (clang.EnumType 0) (quals_of false false)))
             0 (quals_of true true) []); reflexivity.
Defined.

(** ** Pointers *)

Lemma unwrap_pointee_elaborated named pq :
  unwrap_pointee (clang.mkQualType (clang.ElaboratedType named) pq) = named.
Proof. reflexivity. Qed.

Lemma declared_tag_Some ctx pointee d :
  clang.dyn_cast_Tag pointee = Some d →
  clang.getName (getASTContext ctx d) ∈ type_decls ctx →
  declared_tag ctx pointee = Some (clang.getName (getASTContext ctx d)).
Proof.
  intros Htag Hin. unfold declared_tag. rewrite Htag. cbn zeta.
  by rewrite (proj2 (count_true _ _) Hin).
Qed.

Lemma declared_tag_None ctx pointee :
  (clang.dyn_cast_Tag pointee = None
   ∨ ∃ d, clang.dyn_cast_Tag pointee = Some d
          ∧ clang.getName (getASTContext ctx d) ∉ type_decls ctx) →
  declared_tag ctx pointee = None.
Proof.
  unfold declared_tag. intros [->|(d & -> & Hout)]; [done|]. cbn zeta.
  by rewrite (proj2 (count_false _ _) Hout).
Qed.

(** The pointer rule when the name test succeeds: the recursive entry
    point is not called and the table is left as it was. *)
Lemma do_convert_Pointer_declared ctx cv p q dl name :
  declared_tag ctx (unwrap_pointee p) = Some name →
  do_convert_Pointer ctx cv p q dl
  = (Ok (hl.PointerType (hl.NamedType name) (clang.hasConst q) (clang.hasVolatile q)), dl).
Proof. intros H. unfold do_convert_Pointer. cbn zeta. rewrite H. reflexivity. Qed.

(** C2 — The pointer rule.  When the pointee, with one elaborated wrapper
    removed, is a tag type whose name is declared, the result is a pointer
    to [NamedType name] with the caller's qualifier bits and the pointee is
    not converted; otherwise the pointee goes through the general entry
    point [convert(QualType)] and its result is wrapped in a pointer with
    the caller's qualifier bits. *)
Theorem pointer_rule ctx cv p q dl :
  let pointee := unwrap_pointee p in
  let c := clang.hasConst q in
  let v := clang.hasVolatile q in
  (∀ d, clang.dyn_cast_Tag pointee = Some d →
        clang.getName (getASTContext ctx d) ∈ type_decls ctx →
        do_convert ctx cv (clang.PointerType p) q dl
        = (Ok (hl.PointerType (hl.NamedType (clang.getName (getASTContext ctx d))) c v), dl))
  ∧ ((clang.dyn_cast_Tag pointee = None
      ∨ ∃ d, clang.dyn_cast_Tag pointee = Some d
             ∧ clang.getName (getASTContext ctx d) ∉ type_decls ctx) →
     do_convert ctx cv (clang.PointerType p) q dl
     = match cv pointee dl with
       | (Ok t, dl') => (Ok (hl.PointerType t c v), dl')
       | (Abort e, dl') => (Abort e, dl')
       | (OutOfFuel, dl') => (OutOfFuel, dl')
       end)
  ∧ (∀ named pq, p = clang.mkQualType (clang.ElaboratedType named) pq → pointee = named)
  ∧ (clang.dyn_cast_Elaborated p = None → pointee = p)
  ∧ (∀ fuel, convert_QualType (S fuel) ctx pointee
             = convert_Type fuel ctx (clang.getTypePtr pointee) (clang.getQualifiers pointee)).
Proof.
  cbn zeta. repeat split.
  - intros d Htag Hin. cbn [do_convert clang.getUnqualifiedDesugaredType].
    apply do_convert_Pointer_declared. by apply declared_tag_Some.
  - intros Hno. cbn [do_convert clang.getUnqualifiedDesugaredType].
    unfold do_convert_Pointer. cbn zeta. rewrite (declared_tag_None _ _ Hno).
    unfold_M. by destruct (cv (unwrap_pointee p) dl) as [[t|e|] dl'].
  - by intros named pq ->.
  - unfold unwrap_pointee. by intros ->.
Qed.

Lemma pointer_rule_witness :
  do_convert ScenarioC.declared (λ _, out_of_fuel)
    (clang.getTypePtr ScenarioC.S_ptr) (quals_of true false) []
  = (Ok (hl.PointerType (hl.NamedType "S"%string) true false), [])
  ∧ do_convert ScenarioC.undeclared (λ _, abort DeclarationOrderViolation)
      (clang.getTypePtr ScenarioC.S_ptr) (quals_of true false) []
    = (Abort DeclarationOrderViolation, []).
Proof.
  split.
  - destruct (pointer_rule ScenarioC.declared (λ _, out_of_fuel)
                (clang.mkQualType (clang.ElaboratedType
                   (clang.mkQualType ScenarioC.S_type ScenarioC.none)) ScenarioC.none)
                (quals_of true false) []) as (Hbreak & _).
    apply (Hbreak 0); [reflexivity|].
    apply count_true. vm_compute. reflexivity.
  - destruct (pointer_rule ScenarioC.undeclared (λ _, abort DeclarationOrderViolation)
                (clang.mkQualType (clang.ElaboratedType
                   (clang.mkQualType ScenarioC.S_type ScenarioC.none)) ScenarioC.none)
                (quals_of true false) []) as (_ & Hrec & _).
    apply Hrec. right. exists 0. split; [reflexivity|].
    apply count_false. vm_compute. reflexivity.
Defined.

(** C10 — When the pointer rule breaks the recursion, the [NamedType]
    node is built in place: a top-level conversion of the pointer adds the
    entry of the pointer type and nothing else, so a [NamedType name] key
    is in the table afterwards only if it was there before. *)
Theorem recursion_break_records_pointer_only fuel ctx p q dl d :
  let name := clang.getName (getASTContext ctx d) in
  let out := hl.PointerType (hl.NamedType name) (clang.hasConst q) (clang.hasVolatile q) in
  clang.dyn_cast_Tag (unwrap_pointee p) = Some d →
  name ∈ type_decls ctx →
  do_convert ctx (convert_QualType fuel ctx) (clang.PointerType p) q dl = (Ok out, dl)
  ∧ convert_Type fuel ctx (clang.PointerType p) q dl
    = (Ok out, try_emplace out (clang.PointerType p) dl)
  ∧ out ∈ dl_keys (try_emplace out (clang.PointerType p) dl)
  ∧ (hl.NamedType name ∈ dl_keys (try_emplace out (clang.PointerType p) dl)
     ↔ hl.NamedType name ∈ dl_keys dl)
  ∧ (∀ k, k ≠ out → dl_count k (try_emplace out (clang.PointerType p) dl) = dl_count k dl).
Proof.
  cbn zeta. intros Htag Hin.
  assert (Hdo : ∀ dl0, do_convert ctx (convert_QualType fuel ctx) (clang.PointerType p) q dl0
          = (Ok (hl.PointerType (hl.NamedType (clang.getName (getASTContext ctx d)))
                   (clang.hasConst q) (clang.hasVolatile q)), dl0)).
  { intros dl0. cbn [do_convert clang.getUnqualifiedDesugaredType].
    apply do_convert_Pointer_declared. by apply declared_tag_Some. }
  repeat split.
  - apply Hdo.
  - unfold convert_Type, convert, dl_aware_convert.
    rewrite (bind_Ok _ _ _ _ _ (Hdo dl)). reflexivity.
  - apply try_emplace_key.
  - intros H. apply elem_of_try_emplace in H as [?|?]; [discriminate|done].
  - intros H. apply elem_of_try_emplace. by right.
  - intros k Hk. by apply dl_count_try_emplace_other.
Qed.

Lemma recursion_break_records_pointer_only_witness :
  convert_Type 0 ScenarioC.declared (clang.getTypePtr ScenarioC.S_ptr) ScenarioC.none []
  = (Ok (hl.PointerType (hl.NamedType "S"%string) false false),
     [(hl.PointerType (hl.NamedType "S"%string) false false,
       clang.getTypePtr ScenarioC.S_ptr)]).
Proof.
  destruct (recursion_break_records_pointer_only 0 ScenarioC.declared
              (clang.mkQualType (clang.ElaboratedType
                 (clang.mkQualType ScenarioC.S_type ScenarioC.none)) ScenarioC.none)
              ScenarioC.none [] 0) as (_ & Htop & _); [reflexivity| |exact Htop].
  apply count_true. vm_compute. reflexivity.
Defined.

(** ** The public entry point on top of [do_convert] *)

Lemma convert_Type_Ok fuel ctx ty q dl out dl1 :
  do_convert ctx (convert_QualType fuel ctx) ty q dl = (Ok out, dl1) →
  convert_Type fuel ctx ty q dl
  = (Ok out, if clang.isFunctionType ty then dl1 else try_emplace out ty dl1).
Proof.
  intros H. unfold convert_Type, convert, dl_aware_convert.
  rewrite (bind_Ok _ _ _ _ _ H). by destruct (clang.isFunctionType ty).
Qed.

Lemma convert_Type_Abort fuel ctx ty q dl e dl1 :
  do_convert ctx (convert_QualType fuel ctx) ty q dl = (Abort e, dl1) →
  convert_Type fuel ctx ty q dl = (Abort e, dl1).
Proof. intros H. unfold convert_Type, convert, dl_aware_convert. by rewrite (bind_Abort _ _ _ _ _ H). Qed.

Lemma convert_Type_Ok_inv fuel ctx ty q dl out dl' :
  convert_Type fuel ctx ty q dl = (Ok out, dl') →
  ∃ dl1, do_convert ctx (convert_QualType fuel ctx) ty q dl = (Ok out, dl1)
         ∧ dl' = if clang.isFunctionType ty then dl1 else try_emplace out ty dl1.
Proof.
  unfold convert_Type, convert, dl_aware_convert. intros H.
  apply bind_Ok_inv in H as (a & dl1 & Hdo & Hrest).
  exists dl1. destruct (clang.isFunctionType ty); cbn in Hrest; unfold_M;
    injection Hrest as <- <-; by split.
Qed.

(** A pointer to the tag type [d], declared: one level of calls is enough,
    and [d] itself is not visited. *)
Lemma convert_QualType_points_to_tag fuel ctx d ty dl :
  points_to_tag d ty →
  clang.getName (getASTContext ctx d) ∈ type_decls ctx →
  let out := hl.PointerType (hl.NamedType (clang.getName (getASTContext ctx d)))
               (clang.hasConst (clang.getQualifiers ty))
               (clang.hasVolatile (clang.getQualifiers ty)) in
  convert_QualType (S fuel) ctx ty dl = (Ok out, try_emplace out (clang.getTypePtr ty) dl).
Proof.
  intros (qp & pq & Hty & Hqp) Hin. cbn zeta.
  change (convert_QualType (S fuel) ctx ty dl)
    with (convert_Type fuel ctx (clang.getTypePtr ty) (clang.getQualifiers ty) dl).
  rewrite Hty.
  assert (Htag : clang.dyn_cast_Tag (unwrap_pointee qp) = Some d).
  { destruct Hqp as [->|(eq_ & ->)]; reflexivity. }
  erewrite convert_Type_Ok; [reflexivity|].
  cbn [do_convert clang.getUnqualifiedDesugaredType].
  apply do_convert_Pointer_declared. by apply declared_tag_Some.
Qed.

(** ** Records *)

(** The field loop: when every field type converts, the loop returns the
    accumulator extended by one entry per field, in declaration order. *)
Lemma convert_fields_Ok cv fs :
  Forall (λ f, converges cv (clang.field_getType f)) fs →
  ∀ acc dl, ∃ irfs dl',
    convert_fields cv fs acc dl = (Ok (acc ++ irfs), dl')
    ∧ Forall2 (λ f fi, fi.1 = clang.field_getName f
                       ∧ converts_to cv (clang.field_getType f) fi.2) fs irfs.
Proof.
  induction 1 as [|f fs Hf _ IH]; intros acc dl.
  - exists [], dl. rewrite app_nil_r. by split.
  - destruct (Hf dl) as (t & dl1 & Ht). cbn [convert_fields]. cbn zeta.
    rewrite (bind_Ok _ _ _ _ _ Ht).
    destruct (IH (acc ++ [(clang.field_getName f, t)]) dl1) as (irfs & dl' & Hrest & HF).
    exists ((clang.field_getName f, t) :: irfs), dl'. split.
    + rewrite Hrest. by rewrite <- app_assoc.
    + constructor; [|done]. split; [done|]. by exists dl, dl1.
Qed.

Lemma do_convert_Record_defined ctx cv d name q dl :
  clang.getIdentifier (getASTContext ctx d) = Some name →
  name ∈ type_defs ctx →
  do_convert_Record ctx cv d q dl = (Ok (hl.NamedType name), dl).
Proof.
  intros Hid Hin. unfold do_convert_Record, clang.getName. cbn zeta. rewrite Hid.
  by rewrite (proj2 (count_true _ _) Hin).
Qed.

Lemma do_convert_Record_expand ctx cv d name q dl :
  clang.getIdentifier (getASTContext ctx d) = Some name →
  name ∉ type_defs ctx →
  name ∈ type_decls ctx →
  do_convert_Record ctx cv d q dl
  = (fields ← convert_fields cv (clang.fields (getASTContext ctx d)) [];
     mret (hl.RecordType fields)) dl.
Proof.
  intros Hid Hout Hin. unfold do_convert_Record, clang.getName. cbn zeta. rewrite Hid.
  rewrite (proj2 (count_false _ _) Hout), (proj2 (count_true _ _) Hin). reflexivity.
Qed.

Lemma do_convert_Record_undeclared ctx cv d name q dl :
  clang.getIdentifier (getASTContext ctx d) = Some name →
  name ∉ type_defs ctx →
  name ∉ type_decls ctx →
  do_convert_Record ctx cv d q dl = (Abort DeclarationOrderViolation, dl).
Proof.
  intros Hid Hout Hout'. unfold do_convert_Record, clang.getName. cbn zeta. rewrite Hid.
  rewrite (proj2 (count_false _ _) Hout), (proj2 (count_false _ _) Hout'). reflexivity.
Qed.

(** A declared, not yet defined record whose fields all convert. *)
Lemma convert_Type_Record_expand fuel ctx d name q dl :
  clang.getIdentifier (getASTContext ctx d) = Some name →
  name ∉ type_defs ctx →
  name ∈ type_decls ctx →
  Forall (λ f, converges (convert_QualType fuel ctx) (clang.field_getType f))
    (clang.fields (getASTContext ctx d)) →
  ∃ irfs dl1,
    convert_Type fuel ctx (clang.RecordType d) q dl
    = (Ok (hl.RecordType irfs), try_emplace (hl.RecordType irfs) (clang.RecordType d) dl1)
    ∧ Forall2 (λ f fi, fi.1 = clang.field_getName f
                       ∧ converts_to (convert_QualType fuel ctx) (clang.field_getType f) fi.2)
        (clang.fields (getASTContext ctx d)) irfs.
Proof.
  intros Hid Hout Hin Hfs.
  destruct (convert_fields_Ok _ _ Hfs [] dl) as (irfs & dl1 & Hloop & HF).
  exists irfs, dl1. split; [|done].
  erewrite convert_Type_Ok; [reflexivity|].
  cbn [do_convert clang.getUnqualifiedDesugaredType].
  erewrite do_convert_Record_expand by done.
  by rewrite (bind_Ok _ _ _ _ _ Hloop).
Qed.

(** C3 — A named record that is not yet defined.  If its name is not
    declared either, conversion stops with the declaration-order failure.
    If its name is declared, the member fields are converted in declaration
    order, each through [convert] on the field's own type and qualifiers,
    and — every field converting — the result is the record of the
    converted fields, in the same order and under the same names. *)
Theorem record_declaration_order fuel ctx d name q dl :
  let decl := getASTContext ctx d in
  clang.getIdentifier decl = Some name →
  name ∉ type_defs ctx →
  (name ∉ type_decls ctx →
     convert_Type fuel ctx (clang.RecordType d) q dl = (Abort DeclarationOrderViolation, dl))
  ∧ (name ∈ type_decls ctx →
     Forall (λ f, converges (convert_QualType (S fuel) ctx) (clang.field_getType f))
       (clang.fields decl) →
     ∃ irfs dl1,
       convert_Type (S fuel) ctx (clang.RecordType d) q dl
       = (Ok (hl.RecordType irfs), try_emplace (hl.RecordType irfs) (clang.RecordType d) dl1)
       ∧ Forall2
           (λ f fi,
              fi.1 = clang.field_getName f
              ∧ ∃ dl0 dl0',
                  convert_Type fuel ctx
                    (clang.getTypePtr (clang.field_getType f))
                    (clang.getQualifiers (clang.field_getType f)) dl0
                  = (Ok fi.2, dl0'))
           (clang.fields decl) irfs).
Proof.
  cbn zeta. intros Hid Hout. split.
  - intros Hundecl. apply convert_Type_Abort.
    cbn [do_convert clang.getUnqualifiedDesugaredType].
    by eapply do_convert_Record_undeclared.
  - intros Hin Hfs.
    destruct (convert_Type_Record_expand (S fuel) ctx d name q dl Hid Hout Hin Hfs)
      as (irfs & dl1 & Heq & HF).
    by exists irfs, dl1.
Qed.

Lemma record_declaration_order_witness :
  convert_Type 0 ScenarioC.undeclared ScenarioC.S_type ScenarioC.none []
  = (Abort DeclarationOrderViolation, [])
  ∧ ∃ irfs dl1,
      convert_Type 1 ScenarioC.declared ScenarioC.S_type ScenarioC.none []
      = (Ok (hl.RecordType irfs), try_emplace (hl.RecordType irfs) ScenarioC.S_type dl1)
      ∧ length irfs = 1.
Proof.
  split.
  - destruct (record_declaration_order 0 ScenarioC.undeclared 0 "S"%string
                ScenarioC.none []) as (Hfail & _).
    + reflexivity.
    + apply count_false. vm_compute. reflexivity.
    + apply Hfail. apply count_false. vm_compute. reflexivity.
  - destruct (record_declaration_order 0 ScenarioC.declared 0 "S"%string
                ScenarioC.none []) as (_ & Hexpand).
    + reflexivity.
    + apply count_false. vm_compute. reflexivity.
    + destruct Hexpand as (irfs & dl1 & Heq & HF).
      * apply count_true. vm_compute. reflexivity.
      * repeat constructor. intros dl. eexists _, _. reflexivity.
      * exists irfs, dl1. split; [exact Heq|].
        apply Forall2_length in HF. symmetry. exact HF.
Defined.

(** A declared, not yet defined record whose field has an unsupported
    type: the name is declared, yet the conversion does not succeed at any
    depth — as soon as the field is reached it stops with the unknown-type
    failure of that field. *)
Lemma declared_record_with_unsupported_field :
  clang.getIdentifier (getASTContext UnsupportedField.declared 0) = Some "V"%string
  ∧ count "V"%string (type_decls UnsupportedField.declared) = true
  ∧ count "V"%string (type_defs UnsupportedField.declared) = false
  ∧ (∀ fuel,
       convert_Type (S fuel) UnsupportedField.declared UnsupportedField.V_type
         UnsupportedField.none []
       = (Abort UnknownTypeKind, []))
  ∧ ¬ ∃ fuel t dl',
        convert_Type fuel UnsupportedField.declared UnsupportedField.V_type
          UnsupportedField.none []
        = (Ok t, dl').
Proof.
  assert (Hstop : ∀ fuel,
            convert_Type (S fuel) UnsupportedField.declared UnsupportedField.V_type
              UnsupportedField.none []
            = (Abort UnknownTypeKind, [])).
  { intros fuel. apply convert_Type_Abort.
    unfold UnsupportedField.V_type. cbn [do_convert clang.getUnqualifiedDesugaredType].
    erewrite (do_convert_Record_expand _ _ _ "V"%string).
    - reflexivity.
    - reflexivity.
    - apply count_false. vm_compute. reflexivity.
    - apply count_true. vm_compute. reflexivity. }
  split; [reflexivity|]. split; [vm_compute; reflexivity|].
  split; [vm_compute; reflexivity|]. split; [exact Hstop|].
  intros (fuel & t & dl' & H). destruct fuel as [|fuel].
  - vm_compute in H. discriminate.
  - rewrite Hstop in H. discriminate.
Qed.

(** C4 — A record whose name is in the defined set converts to
    [NamedType name] whatever the recursive entry point would do, so its
    body is not expanded again; a second conversion gives the same node and
    leaves the table as the first one left it. *)
Theorem defined_record_is_named fuel ctx cv d name q dl :
  clang.getIdentifier (getASTContext ctx d) = Some name →
  name ∈ type_defs ctx →
  let dl1 := try_emplace (hl.NamedType name) (clang.RecordType d) dl in
  do_convert ctx cv (clang.RecordType d) q dl = (Ok (hl.NamedType name), dl)
  ∧ convert_Type fuel ctx (clang.RecordType d) q dl = (Ok (hl.NamedType name), dl1)
  ∧ convert_Type fuel ctx (clang.RecordType d) q dl1 = (Ok (hl.NamedType name), dl1).
Proof.
  intros Hid Hin. cbn zeta.
  assert (Hdo : ∀ cv' dl0,
            do_convert ctx cv' (clang.RecordType d) q dl0 = (Ok (hl.NamedType name), dl0)).
  { intros cv' dl0. cbn [do_convert clang.getUnqualifiedDesugaredType].
    by apply do_convert_Record_defined. }
  split; [apply Hdo|]. split.
  - by rewrite (convert_Type_Ok _ _ _ _ _ _ _ (Hdo _ dl)).
  - rewrite (convert_Type_Ok _ _ _ _ _ _ _ (Hdo _ _)). cbn.
    by rewrite try_emplace_idem.
Qed.

Lemma defined_record_is_named_witness :
  convert_Type 0 ScenarioC.defined ScenarioC.S_type ScenarioC.none []
  = (Ok (hl.NamedType "S"%string), [(hl.NamedType "S"%string, ScenarioC.S_type)])
  ∧ convert_Type 0 ScenarioC.defined ScenarioC.S_type ScenarioC.none
      [(hl.NamedType "S"%string, ScenarioC.S_type)]
    = (Ok (hl.NamedType "S"%string), [(hl.NamedType "S"%string, ScenarioC.S_type)]).
Proof.
  destruct (defined_record_is_named 0 ScenarioC.defined (λ _, out_of_fuel) 0 "S"%string
              ScenarioC.none []) as (_ & Hfirst & Hsecond).
  - reflexivity.
  - apply count_true. vm_compute. reflexivity.
  - split; [exact Hfirst|exact Hsecond].
Defined.

(** C9 — Record conversion does not look at its qualifier argument: for a
    named record and any two qualifier sets the rule, and the top-level
    call built on it, give the same outcome and the same table; the
    produced node is [NamedType name] when the name is defined and a
    [RecordType] otherwise, and neither has qualifier slots. *)
Theorem record_ignores_qualifiers fuel ctx d name q1 q2 dl :
  clang.getIdentifier (getASTContext ctx d) = Some name →
  do_convert_Record ctx (convert_QualType fuel ctx) d q1
  = do_convert_Record ctx (convert_QualType fuel ctx) d q2
  ∧ convert_Type fuel ctx (clang.RecordType d) q1 dl
    = convert_Type fuel ctx (clang.RecordType d) q2 dl
  ∧ ∀ t dl', convert_Type fuel ctx (clang.RecordType d) q1 dl = (Ok t, dl') →
             hl.outer_quals t = None
             ∧ if count name (type_defs ctx)
               then t = hl.NamedType name
               else ∃ irfs, t = hl.RecordType irfs.
Proof.
  intros Hid. split; [reflexivity|]. split; [reflexivity|].
  intros t dl' H. apply convert_Type_Ok_inv in H as (dl1 & Hdo & _).
  cbn [do_convert clang.getUnqualifiedDesugaredType] in Hdo.
  unfold do_convert_Record, clang.getName in Hdo. cbn zeta in Hdo. rewrite Hid in Hdo.
  destruct (count name (type_defs ctx)); cbn [negb] in Hdo.
  - unfold_M. injection Hdo as <- _. by split.
  - destruct (count name (type_decls ctx)); [|discriminate].
    apply bind_Ok_inv in Hdo as (irfs & dl2 & _ & Hret).
    unfold_M. injection Hret as <- _. split; [done|]. by exists irfs.
Qed.

Lemma record_ignores_qualifiers_witness :
  convert_Type 1 ScenarioC.declared ScenarioC.S_type (quals_of true false) []
  = convert_Type 1 ScenarioC.declared ScenarioC.S_type (quals_of false true) []
  ∧ convert_Type 1 ScenarioC.defined ScenarioC.S_type (quals_of true true) []
    = convert_Type 1 ScenarioC.defined ScenarioC.S_type (quals_of false false) [].
Proof.
  split.
  - destruct (record_ignores_qualifiers 1 ScenarioC.declared 0 "S"%string
                (quals_of true false) (quals_of false true) []) as (_ & Heq & _);
      [reflexivity|exact Heq].
  - destruct (record_ignores_qualifiers 1 ScenarioC.defined 0 "S"%string
                (quals_of true true) (quals_of false false) []) as (_ & Heq & _);
      [reflexivity|exact Heq].
Defined.

Lemma getName_identifier decl name :
  clang.getIdentifier decl = Some name → clang.getName decl = name.
Proof. unfold clang.getName. by intros ->. Qed.

(** Recursion safety for a pointee the pointer rule recognises.  Take a
    named record, declared and not yet defined, whose fields are pointers to
    the record's own tag type ([struct S *], with or without the elaborated
    keyword) or have types whose conversion comes back.  Its conversion
    comes back with a record type, and each self-referential field becomes
    a pointer to [NamedType name] carrying the field's own qualifier bits. *)
Lemma self_pointer_record fuel ctx d name q dl :
  let decl := getASTContext ctx d in
  clang.getIdentifier decl = Some name →
  name ∈ type_decls ctx →
  name ∉ type_defs ctx →
  Forall (λ f, points_to_tag d (clang.field_getType f)
               ∨ converges (convert_QualType (S fuel) ctx) (clang.field_getType f))
    (clang.fields decl) →
  ∃ irfs dl',
    convert_Type (S fuel) ctx (clang.RecordType d) q dl = (Ok (hl.RecordType irfs), dl')
    ∧ Forall2
        (λ f fi,
           fi.1 = clang.field_getName f
           ∧ (points_to_tag d (clang.field_getType f) →
              fi.2 = hl.PointerType (hl.NamedType name)
                       (clang.hasConst (clang.getQualifiers (clang.field_getType f)))
                       (clang.hasVolatile (clang.getQualifiers (clang.field_getType f)))))
        (clang.fields decl) irfs.
Proof.
  cbn zeta. intros Hid Hin Hout Hfs.
  assert (Hname : clang.getName (getASTContext ctx d) = name)
    by by apply getName_identifier.
  assert (Hconv : Forall (λ f, converges (convert_QualType (S fuel) ctx)
                                 (clang.field_getType f))
                    (clang.fields (getASTContext ctx d))).
  { eapply Forall_impl; [exact Hfs|]. intros f [Hself|Hother]; [|done].
    intros dl0. eexists _, _. apply convert_QualType_points_to_tag; [done|].
    by rewrite Hname. }
  destruct (convert_Type_Record_expand (S fuel) ctx d name q dl Hid Hout Hin Hconv)
    as (irfs & dl1 & Heq & HF).
  exists irfs, (try_emplace (hl.RecordType irfs) (clang.RecordType d) dl1).
  split; [done|].
  eapply Forall2_impl; [exact HF|].
  intros f fi [Hfst (dl0 & dl0' & Hto)]. split; [done|].
  intros Hself.
  rewrite (convert_QualType_points_to_tag fuel ctx d _ dl0 Hself) in Hto
    by by rewrite Hname.
  rewrite Hname in Hto. by injection Hto as <- _.
Qed.

(** Scenario C: [struct S { struct S *next; }] with [S] declared. *)
Example scenario_C :
  (convert_Type 1 ScenarioC.declared ScenarioC.S_type ScenarioC.none []).1
  = Ok (hl.RecordType
          [("next"%string, hl.PointerType (hl.NamedType "S"%string) false false)]).
Proof.
  destruct (self_pointer_record 0 ScenarioC.declared 0 "S"%string ScenarioC.none [])
    as (irfs & dl' & Heq & HF).
  - reflexivity.
  - apply count_true. vm_compute. reflexivity.
  - apply count_false. vm_compute. reflexivity.
  - constructor; [|constructor].
    left. eexists _, _. split; [reflexivity|]. right. eexists. reflexivity.
  - unfold ScenarioC.S_type. rewrite Heq. cbn [fst]. f_equal. f_equal.
    cbn in HF. apply Forall2_cons_inv_l in HF as (fi & rest & [Hn Ht] & Hnil & ->).
    apply Forall2_nil_inv_l in Hnil as ->.
    destruct fi as [n t]. cbn in Hn, Ht. rewrite Hn, Ht; [reflexivity|].
    eexists _, _. split; [reflexivity|]. right. eexists. reflexivity.
Qed.

(** ** Qualifiers *)

Section Qualifiers.

Variable ctx : TranslationContext.
Variable cv : clang.QualType → M hl.Type_.

Lemma do_convert_Builtin_pure k q dl :
  do_convert_Builtin k q dl = ((do_convert_Builtin k q []).1, dl).
Proof. destruct k; reflexivity. Qed.



(** The public entry point returns what [do_convert] returns. *)
Lemma convert_outcome ty q dl :
  (convert ctx cv ty q dl).1 = (do_convert ctx cv ty q dl).1.
Proof.
  unfold convert, dl_aware_convert. unfold_M.
  destruct (do_convert ctx cv ty q dl) as [[t|e|] dl1]; [|done..].
  by destruct (negb (clang.isFunctionType ty)).
Qed.

End Qualifiers.



(** ** The data-layout side effect *)

Lemma emplace_all_app log1 log2 dl :
  emplace_all (log1 ++ log2) dl = emplace_all log2 (emplace_all log1 dl).
Proof. unfold emplace_all. apply fold_left_app. Qed.

Lemma emplace_all_cons e log dl :
  emplace_all (e :: log) dl = emplace_all log (try_emplace e.1 e.2 dl).
Proof. reflexivity. Qed.

Lemma emplace_all_mono log k dl : k ∈ dl_keys dl → k ∈ dl_keys (emplace_all log dl).
Proof.
  revert dl. induction log as [|[k0 v0] log IH]; intros dl Hin; [done|].
  cbn. apply IH, elem_of_try_emplace. by right.
Qed.

Lemma emplace_all_keys log e dl : e ∈ log → e.1 ∈ dl_keys (emplace_all log dl).
Proof.
  revert dl. induction log as [|[k0 v0] log IH]; intros dl Hin.
  - by apply elem_of_nil in Hin.
  - apply elem_of_cons in Hin as [->|Hin]; cbn.
    + apply emplace_all_mono, try_emplace_key.
    + by apply IH.
Qed.

Lemma emplace_all_fixed log dl :
  (∀ e, e ∈ log → e.1 ∈ dl_keys dl) → emplace_all log dl = dl.
Proof.
  induction log as [|[k0 v0] log IH]; intros Hall; [done|]. cbn.
  rewrite try_emplace_present by (apply (Hall (k0, v0)); by left).
  apply IH. intros e He. apply Hall. by right.
Qed.

Lemma emplace_all_idem log dl :
  emplace_all log (emplace_all log dl) = emplace_all log dl.
Proof. apply emplace_all_fixed. intros e He. by apply emplace_all_keys. Qed.

Lemma emplace_all_NoDup log dl :
  NoDup (dl_keys dl) → NoDup (dl_keys (emplace_all log dl)).
Proof.
  revert dl. induction log as [|[k0 v0] log IH]; intros dl Hnd; [done|].
  cbn. by apply IH, try_emplace_NoDup.
Qed.

Lemma emplace_all_count_function log k dl :
  Forall (λ e, hl.is_function e.1 = false) log →
  hl.is_function k = true →
  dl_count k (emplace_all log dl) = dl_count k dl.
Proof.
  intros Hlog Hk. revert dl.
  induction Hlog as [|[k0 v0] log Hk0 _ IH]; intros dl; [done|].
  rewrite emplace_all_cons, IH. apply dl_count_try_emplace_other.
  intros ->. cbn [fst] in *. congruence.
Qed.

(** Closure of [replays] under the monad operations. *)

Lemma replays_pure {A} (m : M A) r : (∀ dl, m dl = (r, dl)) → replays m.
Proof. intros H. exists r, []. by split. Qed.

Lemma replays_ret {A} (a : A) : replays (mret a).
Proof. by apply (replays_pure _ (Ok a)). Qed.

Lemma replays_abort {A} e : replays (@abort A e).
Proof. by apply (replays_pure _ (Abort e)). Qed.

Lemma replays_out_of_fuel {A} : replays (@out_of_fuel A).
Proof. by apply (replays_pure _ OutOfFuel). Qed.

Lemma replays_try_emplace k v :
  hl.is_function k = false → replays (data_layout_try_emplace k v).
Proof. intros Hk. exists (Ok tt), [(k, v)]. split; [done|]. by constructor. Qed.

Lemma replays_bind {A B} (m : M A) (f : A → M B) :
  replays m → (∀ a, replays (f a)) → replays (m ≫= f).
Proof.
  intros (r & log & Hm & Hlog) Hf. destruct r as [a|e|].
  - destruct (Hf a) as (r' & log' & Hfa & Hlog').
    exists r', (log ++ log'). split; [|by apply Forall_app].
    intros dl. rewrite (bind_Ok _ _ _ _ _ (Hm dl)), Hfa. by rewrite emplace_all_app.
  - exists (Abort e), log. split; [|done].
    intros dl. by rewrite (bind_Abort _ _ _ _ _ (Hm dl)).
  - exists OutOfFuel, log. split; [|done].
    intros dl. by rewrite (bind_OutOfFuel _ _ _ _ (Hm dl)).
Qed.

Create HintDb replays.
#[local] Hint Resolve replays_ret replays_abort replays_out_of_fuel replays_bind : replays.

Section Replays.

Variable ctx : TranslationContext.
Variable cv : clang.QualType → M hl.Type_.
Hypothesis cv_replays : ∀ ty, replays (cv ty).

Lemma replays_convert_fields fs : ∀ acc, replays (convert_fields cv fs acc).
Proof. induction fs as [|f fs IH]; intros acc; cbn; auto with replays. Qed.

Lemma replays_convert_params ps : ∀ acc, replays (convert_params cv ps acc).
Proof. induction ps as [|p ps IH]; intros acc; cbn; auto with replays. Qed.

Lemma replays_do_convert ty q : replays (do_convert ctx cv ty q).
Proof.
  unfold do_convert.
  destruct (clang.getUnqualifiedDesugaredType ty) as [k|p|d|d|el n|r ps|r|?|?|?|];
    auto with replays.
  - eapply replays_pure. intros dl. apply do_convert_Builtin_pure.
  - unfold do_convert_Pointer. cbn zeta.
    destruct (declared_tag ctx (unwrap_pointee p)); auto with replays.
  - unfold do_convert_Record. cbn zeta.
    destruct (clang.getIdentifier _); auto with replays.
    destruct (negb _); auto with replays.
    destruct (count _ (type_decls ctx)); auto with replays.
    apply replays_bind; [apply replays_convert_fields|auto with replays].
  - unfold do_convert_Enum. cbn zeta.
    destruct (clang.getIdentifier _); auto with replays.
  - unfold do_convert_ConstantArray. auto with replays.
  - cbn [convert_FunctionType].
    apply replays_bind; [apply replays_convert_params|auto with replays].
  - cbn [convert_FunctionType]. auto with replays.
Qed.

(** Function types, and only they, become [FunctionType]. *)
Lemma do_convert_is_function ty q dl out dl' :
  do_convert ctx cv ty q dl = (Ok out, dl') →
  hl.is_function out = clang.isFunctionType ty.
Proof.
  unfold do_convert, clang.isFunctionType.
  destruct (clang.getUnqualifiedDesugaredType ty) as [k|p|d|d|el n|r ps|r|?|?|?|];
    intros H; try discriminate.
  - rewrite do_convert_Builtin_pure in H. injection H as H _.
    destruct k; cbn in H; try discriminate; by injection H as <-.
  - apply bind_Ok_inv in H as (a & dl1 & _ & H). unfold_M. by injection H as <- _.
  - unfold do_convert_Record in H. cbn zeta in H.
    destruct (clang.getIdentifier _); [|discriminate].
    destruct (negb _).
    + destruct (count _ (type_decls ctx)); [|discriminate].
      apply bind_Ok_inv in H as (a & dl1 & _ & H). unfold_M. by injection H as <- _.
    + unfold_M. by injection H as <- _.
  - unfold do_convert_Enum in H. cbn zeta in H.
    destruct (clang.getIdentifier _); [|discriminate].
    unfold_M. by injection H as <- _.
  - apply bind_Ok_inv in H as (a & dl1 & _ & H). unfold_M. by injection H as <- _.
  - cbn [convert_FunctionType] in H.
    apply bind_Ok_inv in H as (a & dl1 & _ & H).
    apply bind_Ok_inv in H as (b & dl2 & _ & H). unfold_M. by injection H as <- _.
  - cbn [convert_FunctionType] in H.
    apply bind_Ok_inv in H as (b & dl2 & _ & H). unfold_M. by injection H as <- _.
Qed.

Lemma replays_convert ty q : replays (convert ctx cv ty q).
Proof.
  unfold convert, dl_aware_convert.
  destruct (replays_do_convert ty q) as (r & log & Hdo & Hlog).
  destruct r as [out|e|].
  - destruct (clang.isFunctionType ty) eqn:Hfun; cbn [negb].
    + exists (Ok out), log. split; [|done].
      intros dl. by rewrite (bind_Ok _ _ _ _ _ (Hdo dl)).
    + exists (Ok out), (log ++ [(out, ty)]). split.
      * intros dl. rewrite (bind_Ok _ _ _ _ _ (Hdo dl)). by rewrite emplace_all_app.
      * apply Forall_app. split; [done|]. constructor; [|done]. cbn.
        rewrite <- Hfun. eapply do_convert_is_function. apply (Hdo []).
  - exists (Abort e), log. split; [|done].
    intros dl. by rewrite (bind_Abort _ _ _ _ _ (Hdo dl)).
  - exists OutOfFuel, log. split; [|done].
    intros dl. by rewrite (bind_OutOfFuel _ _ _ _ (Hdo dl)).
Qed.

End Replays.

Lemma replays_convert_QualType fuel ctx ty : replays (convert_QualType fuel ctx ty).
Proof.
  revert ty. induction fuel as [|fuel IH]; intros ty; cbn.
  - apply replays_out_of_fuel.
  - by apply replays_convert.
Qed.

Lemma replays_convert_Type fuel ctx ty q : replays (convert_Type fuel ctx ty q).
Proof. apply replays_convert. intros ty'. apply replays_convert_QualType. Qed.

(** C5 — The data-layout side effect of the public entry point.  A call
    returns a function type exactly for a source function type.  A call
    that returns a type [out] that is not a function type leaves an entry
    keyed by [out] in the table — exactly one when the table had no
    duplicated key.  Recording is idempotent: the same call on the table
    it produced returns [out] again and leaves that table as it is.  For a
    function type the recording step is skipped: the table is the one the
    rule left, and the number of entries keyed by [out] has not changed. *)
Theorem data_layout_recording fuel ctx ty q dl out dl' :
  convert_Type fuel ctx ty q dl = (Ok out, dl') →
  hl.is_function out = clang.isFunctionType ty
  ∧ (hl.is_function out = false →
     (∃ dl1, do_convert ctx (convert_QualType fuel ctx) ty q dl = (Ok out, dl1)
             ∧ dl' = try_emplace out ty dl1)
     ∧ out ∈ dl_keys dl'
     ∧ (NoDup (dl_keys dl) → NoDup (dl_keys dl') ∧ dl_count out dl' = 1))
  ∧ convert_Type fuel ctx ty q dl' = (Ok out, dl')
  ∧ (hl.is_function out = true →
     do_convert ctx (convert_QualType fuel ctx) ty q dl = (Ok out, dl')
     ∧ dl_count out dl' = dl_count out dl).
Proof.
  intros H.
  destruct (replays_convert_Type fuel ctx ty q) as (r & log & Hrun & Hlog).
  pose proof (Hrun dl) as Hdl. rewrite H in Hdl. injection Hdl as <- ->.
  destruct (convert_Type_Ok_inv _ _ _ _ _ _ _ H) as (dl1 & Hdo & Hdl').
  assert (Hkind : hl.is_function out = clang.isFunctionType ty)
    by (eapply do_convert_is_function; exact Hdo).
  split; [done|]. rewrite Hkind. split; [|split].
  - intros Hfun. rewrite Hfun in Hdl'. split; [by exists dl1|].
    assert (Hkey : out ∈ dl_keys (emplace_all log dl)).
    { rewrite Hdl'. apply try_emplace_key. }
    split; [done|]. intros Hnd.
    assert (Hnd' : NoDup (dl_keys (emplace_all log dl))) by by apply emplace_all_NoDup.
    split; [done|]. by apply dl_count_NoDup.
  - rewrite Hrun. by rewrite emplace_all_idem.
  - intros Hfun. rewrite Hfun in Hdl'. subst dl1. split; [done|].
    apply emplace_all_count_function; [done|]. by rewrite Hkind.
Qed.

Lemma data_layout_recording_witness :
  let out := hl.RecordType
               [("next"%string, hl.PointerType (hl.NamedType "S"%string) false false)] in
  let dl' := (convert_Type 1 ScenarioC.declared ScenarioC.S_type ScenarioC.none []).2 in
  dl_count out dl' = 1
  ∧ convert_Type 1 ScenarioC.declared ScenarioC.S_type ScenarioC.none dl' = (Ok out, dl').
Proof.
  cbn zeta.
  destruct (data_layout_recording 1 ScenarioC.declared ScenarioC.S_type ScenarioC.none []
              (hl.RecordType
                 [("next"%string, hl.PointerType (hl.NamedType "S"%string) false false)])
              (convert_Type 1 ScenarioC.declared ScenarioC.S_type ScenarioC.none []).2)
    as (_ & Hrec & Hidem & _).
  - vm_compute. reflexivity.
  - destruct Hrec as (_ & _ & Hcount); [reflexivity|].
    destruct Hcount as [_ Hone]; [apply NoDup_nil_2|].
    split; [exact Hone|exact Hidem].
Defined.

(** ** Scenarios of the specification, run on the model *)

Example scenario_A dl :
  convert_QualType 1 Scenarios.no_tags Scenarios.int_ dl
  = (Ok (hl.IntType false false false),
     try_emplace (hl.IntType false false false) (clang.BuiltinType clang.Int) dl).
Proof. reflexivity. Qed.

Example scenario_D :
  (convert_Type 1 Scenarios.no_tags Scenarios.double_4 Scenarios.none []).1
  = Ok (hl.ConstantArrayType (hl.DoubleType false false) 4 false false).
Proof. vm_compute. reflexivity. Qed.

Example scenario_E :
  convert_Type 2 Scenarios.no_tags Scenarios.int_of_int_and_string Scenarios.none []
  = (Ok (hl.FunctionType
           [hl.IntType false false false;
            hl.PointerType (hl.CharType false true false) false false]
           (hl.IntType false false false)),
     [(hl.IntType false false false, clang.BuiltinType clang.Int);
      (hl.CharType false true false, clang.BuiltinType clang.Char_S);
      (hl.PointerType (hl.CharType false true false) false false,
       clang.getTypePtr Scenarios.const_char_ptr)]).
Proof. vm_compute. reflexivity. Qed.

(** ** A pointee hidden behind a typedef *)

Lemma bind_fst_OutOfFuel {A B} (m : M A) (f : A → M B) dl :
  (m dl).1 = OutOfFuel → ((m ≫= f) dl).1 = OutOfFuel.
Proof.
  unfold mbind, M_bind. destruct (m dl) as [[a|e|] dl1]; cbn; intros H; done.
Qed.

(** C1 — Recursion safety asks that a declared record containing a
    pointer to itself converts, the field becoming a pointer to
    [NamedType name].  The name test of the pointer rule looks at the
    pointee node itself, after removing one elaborated wrapper.  For
    [typedef struct S S_t; struct S { S_t *next; }] the pointee is a
    typedef node: the test does not fire, the pointee is converted through
    the general entry point, which desugars it to the record, and the
    record — declared, not defined — is expanded again below its own
    field.  No nesting depth is enough for the call to come back. *)
Theorem typedef_self_pointer_never_returns fuel :
  ∀ q dl, (convert_Type fuel TypedefNode.declared TypedefNode.S_type q dl).1 = OutOfFuel.
Proof.
  assert (Hexpand : ∀ n q dl,
    (convert_Type n TypedefNode.declared TypedefNode.S_type q dl).1
    = (((convert_QualType n TypedefNode.declared
           (clang.mkQualType (clang.PointerType TypedefNode.S_t) TypedefNode.none)
         ≫= λ t, convert_fields (convert_QualType n TypedefNode.declared) []
                    [("next"%string, t)])
        ≫= λ fields, mret (hl.RecordType fields)) dl).1).
  { intros n q dl. unfold convert_Type. rewrite convert_outcome.
    unfold TypedefNode.S_type. cbn [do_convert clang.getUnqualifiedDesugaredType].
    erewrite (do_convert_Record_expand _ _ _ "S"%string); first reflexivity.
    - reflexivity.
    - apply count_false. vm_compute. reflexivity.
    - apply count_true. vm_compute. reflexivity. }
  assert (Hstep : ∀ n,
    (∀ q dl, (convert_Type n TypedefNode.declared TypedefNode.S_type q dl).1 = OutOfFuel) →
    ∀ q dl, (convert_Type (S (S n)) TypedefNode.declared TypedefNode.S_type q dl).1
            = OutOfFuel).
  { intros n IH q dl. rewrite Hexpand.
    apply bind_fst_OutOfFuel. apply bind_fst_OutOfFuel.
    change (convert_QualType (S (S n)) TypedefNode.declared
              (clang.mkQualType (clang.PointerType TypedefNode.S_t) TypedefNode.none) dl)
      with (convert TypedefNode.declared (convert_QualType (S n) TypedefNode.declared)
              (clang.PointerType TypedefNode.S_t) TypedefNode.none dl).
    rewrite convert_outcome.
    cbn [do_convert clang.getUnqualifiedDesugaredType].
    unfold do_convert_Pointer. cbn zeta.
    change (declared_tag TypedefNode.declared (unwrap_pointee TypedefNode.S_t))
      with (@None string).
    apply bind_fst_OutOfFuel.
    change (unwrap_pointee TypedefNode.S_t) with TypedefNode.S_t.
    change (convert_QualType (S n) TypedefNode.declared TypedefNode.S_t dl)
      with (convert TypedefNode.declared (convert_QualType n TypedefNode.declared)
              (clang.TypedefType (clang.mkQualType TypedefNode.S_type TypedefNode.none))
              TypedefNode.none dl).
    rewrite convert_outcome.
    change (do_convert TypedefNode.declared (convert_QualType n TypedefNode.declared)
              (clang.TypedefType (clang.mkQualType TypedefNode.S_type TypedefNode.none))
              TypedefNode.none dl)
      with (do_convert TypedefNode.declared (convert_QualType n TypedefNode.declared)
              TypedefNode.S_type TypedefNode.none dl).
    rewrite <- convert_outcome. apply IH. }
  assert (H0 : ∀ q dl,
    (convert_Type 0 TypedefNode.declared TypedefNode.S_type q dl).1 = OutOfFuel).
  { intros q dl. rewrite Hexpand. reflexivity. }
  assert (H1 : ∀ q dl,
    (convert_Type 1 TypedefNode.declared TypedefNode.S_type q dl).1 = OutOfFuel).
  { intros q dl. rewrite Hexpand. reflexivity. }
  assert (Hboth : ∀ n,
    (∀ q dl, (convert_Type n TypedefNode.declared TypedefNode.S_type q dl).1 = OutOfFuel)
    ∧ (∀ q dl, (convert_Type (S n) TypedefNode.declared TypedefNode.S_type q dl).1
               = OutOfFuel)).
  { induction n as [|n [IHa IHb]]; [by split|]. split; [done|]. by apply Hstep. }
  apply Hboth.
Qed.

(** * Further properties of the converter *)

(** ** Builtin types: floating kinds, failures, what the result remembers *)

(** X1 — A floating builtin with a floating class converts, without
    touching the table, to the floating type of that class carrying the
    caller's qualifier bits; the node has no unsigned bit. *)
Theorem floating_classification k kind q dl :
  get_floating_kind k = Ok kind →
  ∃ t, do_convert_Builtin k q dl = (Ok t, dl)
       ∧ floating_kind_of t = Some kind
       ∧ hl.unsigned_bit t = None
       ∧ hl.integer_kind t = None
       ∧ hl.outer_quals t = Some (clang.hasConst q, clang.hasVolatile q).
Proof.
  intros Hk.
  destruct k; simpl in Hk; try discriminate;
    injection Hk as <-; eexists; (split; [reflexivity|]); repeat split.
Qed.

Lemma floating_classification_witness :
  ∃ t, do_convert_Builtin clang.Float16 (quals_of true false) [] = (Ok t, [])
       ∧ floating_kind_of t = Some hl.Half
       ∧ hl.unsigned_bit t = None
       ∧ hl.integer_kind t = None
       ∧ hl.outer_quals t = Some (true, false).
Proof.
  apply (floating_classification clang.Float16 hl.Half (quals_of true false) []).
  reflexivity.
Defined.

(** X2 — The two ways a builtin fails.  The rule stops with the
    unknown-integer failure exactly for an integer builtin other than bool
    that has no width class (the wide and UTF character types), and with
    the unknown-builtin failure exactly for a builtin that is neither void
    nor integer nor floating; in every other case it succeeds.  A boolean,
    although an integer type for clang, becomes the bool type. *)
Theorem builtin_failures k q dl :
  (do_convert_Builtin k q dl = (Abort UnknownIntegerKind, dl)
   ↔ clang.isIntegerType k = true ∧ clang.isBooleanType k = false
     ∧ get_integer_kind k = Abort UnknownIntegerKind)
  ∧ (do_convert_Builtin k q dl = (Abort UnknownBuiltinKind, dl)
     ↔ clang.isVoidType k = false ∧ clang.isIntegerType k = false
       ∧ clang.isFloatingType k = false)
  ∧ ((∃ t, do_convert_Builtin k q dl = (Ok t, dl))
     ∨ do_convert_Builtin k q dl = (Abort UnknownIntegerKind, dl)
     ∨ do_convert_Builtin k q dl = (Abort UnknownBuiltinKind, dl))
  ∧ (clang.isBooleanType k = true →
     clang.isIntegerType k = true
     ∧ do_convert_Builtin k q dl
       = (Ok (hl.BoolType (clang.hasConst q) (clang.hasVolatile q)), dl)).
Proof.
  destruct k; cbn; repeat split; intros; try discriminate; try tauto;
    try (destruct_and?; discriminate); eauto.
Qed.

Lemma builtin_failures_witness :
  do_convert_Builtin clang.Char16 (quals_of false false) [] = (Abort UnknownIntegerKind, [])
  ∧ do_convert_Builtin clang.NullPtr (quals_of false false) [] = (Abort UnknownBuiltinKind, [])
  ∧ do_convert_Builtin clang.Bool (quals_of false true) [] = (Ok (hl.BoolType false true), []).
Proof.
  destruct (builtin_failures clang.Char16 (quals_of false false) []) as ([_ Hint] & _).
  destruct (builtin_failures clang.NullPtr (quals_of false false) []) as (_ & [_ Hunk] & _).
  destruct (builtin_failures clang.Bool (quals_of false true) []) as (_ & _ & _ & Hbool).
  split; [apply Hint; repeat split; reflexivity|].
  split; [apply Hunk; repeat split; reflexivity|].
  apply Hbool. reflexivity.
Defined.

(** X3 — What the produced type remembers of the builtin.  Two builtin
    kinds that convert to the same type under the same qualifiers are the
    same kind, or one of the pairs the classification merges: plain char
    with the explicitly signed or unsigned char of the same signedness, and
    the two half-precision floats. *)
Theorem builtin_conversion_injective k1 k2 q t dl1 dl2 :
  do_convert_Builtin k1 q dl1 = (Ok t, dl1) →
  do_convert_Builtin k2 q dl2 = (Ok t, dl2) →
  k1 = k2 ∨ merged_builtins k1 k2 = true.
Proof.
  rewrite (do_convert_Builtin_pure k1), (do_convert_Builtin_pure k2).
  intros H1 H2. injection H1 as H1. injection H2 as H2.
  destruct q as [c v].
  destruct k1; cbn in H1; try discriminate; injection H1 as <-;
    destruct k2; cbn in H2; try discriminate; auto.
Qed.

Lemma builtin_conversion_injective_witness :
  clang.Char_S = clang.SChar ∨ merged_builtins clang.Char_S clang.SChar = true.
Proof.
  apply (builtin_conversion_injective clang.Char_S clang.SChar (quals_of true false)
           (hl.CharType false true false) [] []); reflexivity.
Defined.

(** ** Desugaring and dispatch *)

Lemma getUnqualifiedDesugaredType_idem :
  ∀ ty, clang.getUnqualifiedDesugaredType (clang.getUnqualifiedDesugaredType ty)
        = clang.getUnqualifiedDesugaredType ty.
Proof.
  fix IH 1. intros [k|p|d|d|el n|r ps|r|[t qs]|[t qs]|[t qs]|]; cbn; try reflexivity; apply IH.
Qed.

Lemma do_convert_canonical ctx cv ty q :
  do_convert ctx cv ty q = do_convert ctx cv (clang.getUnqualifiedDesugaredType ty) q.
Proof. unfold do_convert. by rewrite getUnqualifiedDesugaredType_idem. Qed.

Lemma isFunctionType_canonical ty :
  clang.isFunctionType ty = clang.isFunctionType (clang.getUnqualifiedDesugaredType ty).
Proof. unfold clang.isFunctionType. by rewrite getUnqualifiedDesugaredType_idem. Qed.

Lemma dl_keys_try_emplace_value k v v' dl :
  dl_keys (try_emplace k v dl) = dl_keys (try_emplace k v' dl).
Proof.
  unfold try_emplace, dl_keys. case_bool_decide; [done|]. by rewrite !fmap_app.
Qed.

Lemma addQualifiers_assoc a b c :
  clang.addQualifiers (clang.addQualifiers a b) c
  = clang.addQualifiers a (clang.addQualifiers b c).
Proof. unfold clang.addQualifiers. cbn. by rewrite !orb_assoc. Qed.

(** X4 — Sugar is transparent.  With the same caller qualifiers,
    [convert(Type*, Quals)] gives on a type the outcome, and the table
    keys, it gives on the canonical form of that type; desugaring twice
    changes nothing.  Through [convert(QualType)] a typedef, an elaborated
    or a parenthesised type converts like the type it wraps, with the
    qualifiers written inside the sugar added to those of the occurrence:
    [typedef const int cint] converts like [const int]. *)
Theorem sugar_is_transparent fuel ctx ty q dl :
  let canonical := clang.getUnqualifiedDesugaredType ty in
  clang.getUnqualifiedDesugaredType canonical = canonical
  ∧ (convert_Type fuel ctx ty q dl).1 = (convert_Type fuel ctx canonical q dl).1
  ∧ dl_keys (convert_Type fuel ctx ty q dl).2
    = dl_keys (convert_Type fuel ctx canonical q dl).2
  ∧ (∀ inner local,
       let unwrapped :=
         convert_QualType fuel ctx
           (clang.mkQualType ty (clang.addQualifiers inner local)) dl in
       (convert_QualType fuel ctx
          (clang.mkQualType (clang.TypedefType (clang.mkQualType ty inner)) local) dl).1
       = unwrapped.1
       ∧ (convert_QualType fuel ctx
            (clang.mkQualType (clang.ElaboratedType (clang.mkQualType ty inner)) local) dl).1
         = unwrapped.1
       ∧ (convert_QualType fuel ctx
            (clang.mkQualType (clang.ParenType (clang.mkQualType ty inner)) local) dl).1
         = unwrapped.1).
Proof.
  cbn zeta. split; [apply getUnqualifiedDesugaredType_idem|].
  split; [|split].
  - unfold convert_Type. rewrite !convert_outcome. by rewrite do_convert_canonical.
  - unfold convert_Type, convert, dl_aware_convert.
    rewrite (do_convert_canonical ctx _ ty), (isFunctionType_canonical ty).
    set (c := clang.getUnqualifiedDesugaredType ty).
    unfold_M.
    destruct (do_convert ctx (convert_QualType fuel ctx) c q dl) as [[t|e|] dl1];
      [|done..].
    destruct (negb (clang.isFunctionType c)); [|done].
    cbn [snd]. apply dl_keys_try_emplace_value.
  - intros inner local. destruct fuel as [|fuel]; [by repeat split|].
    cbn [convert_QualType clang.getTypePtr clang.getQualifiers
           clang.canonicalQualifiers].
    rewrite !convert_outcome, !addQualifiers_assoc. by repeat split.
Qed.

Lemma sugar_is_transparent_cint :
  (convert_QualType 1 Samples.empty (clang.mkQualType Samples.cint Samples.none) []).1
  = Ok (hl.IntType false true false).
Proof. vm_compute. reflexivity. Qed.

(** X5 — A type whose canonical form is none of builtin, pointer, record,
    enum, constant array or function stops the conversion with the
    unknown-type failure, at every depth and under any sugar, and the
    table is left as it was. *)
Theorem unknown_type_kind fuel ctx ty q dl :
  clang.getUnqualifiedDesugaredType ty = clang.OtherType →
  convert_Type fuel ctx ty q dl = (Abort UnknownTypeKind, dl).
Proof.
  intros Hty. apply convert_Type_Abort. unfold do_convert. by rewrite Hty.
Qed.

Lemma unknown_type_kind_witness :
  convert_Type 0 Samples.empty
    (clang.TypedefType (clang.mkQualType clang.OtherType (quals_of true false)))
    Samples.none []
  = (Abort UnknownTypeKind, []).
Proof.
  apply (unknown_type_kind 0 Samples.empty
           (clang.TypedefType (clang.mkQualType clang.OtherType (quals_of true false)))
           Samples.none []).
  reflexivity.
Defined.

(** X6 — An anonymous record stops the conversion with the
    anonymous-record failure whatever the registry holds — also when the
    empty name is registered as declared or defined — and before any field
    is converted; the table is left as it was. *)
Theorem anonymous_record_fails fuel ctx ty d q dl :
  clang.getUnqualifiedDesugaredType ty = clang.RecordType d →
  clang.getIdentifier (getASTContext ctx d) = None →
  convert_Type fuel ctx ty q dl = (Abort AnonymousRecord, dl)
  ∧ ∀ cv, do_convert ctx cv ty q dl = (Abort AnonymousRecord, dl).
Proof.
  intros Hty Hid.
  assert (H : ∀ cv, do_convert ctx cv ty q dl = (Abort AnonymousRecord, dl)).
  { intros cv. unfold do_convert. rewrite Hty. unfold do_convert_Record. cbn zeta.
    by rewrite Hid. }
  split; [|done]. by apply convert_Type_Abort.
Qed.

Lemma anonymous_record_fails_witness :
  convert_Type 3 Samples.empty_name_declared (clang.RecordType 2) Samples.none []
  = (Abort AnonymousRecord, []).
Proof.
  destruct (anonymous_record_fails 3 Samples.empty_name_declared (clang.RecordType 2) 2
              Samples.none []) as [Htop _]; [reflexivity|reflexivity|exact Htop].
Defined.

(** ** Pointers to tag types *)

(** X7 — A pointer to an anonymous tag type.  The name test uses the
    empty string as the name.  If the empty name is declared, the pointer
    converts to a pointer to [NamedType ""] and the anonymous check of the
    record and enum rules is never reached; otherwise the pointee is
    converted and the conversion stops with the anonymous-record or
    anonymous-enum failure of the pointee. *)
Theorem pointer_to_anonymous_tag fuel ctx p pq d q dl :
  clang.getIdentifier (getASTContext ctx d) = None →
  (unwrap_pointee p = clang.mkQualType (clang.RecordType d) pq
   ∨ unwrap_pointee p = clang.mkQualType (clang.EnumType d) pq) →
  let out := hl.PointerType (hl.NamedType ""%string)
               (clang.hasConst q) (clang.hasVolatile q) in
  (""%string ∈ type_decls ctx →
     convert_Type fuel ctx (clang.PointerType p) q dl
     = (Ok out, try_emplace out (clang.PointerType p) dl))
  ∧ (""%string ∉ type_decls ctx →
     convert_Type (S fuel) ctx (clang.PointerType p) q dl
     = (Abort (match clang.getTypePtr (unwrap_pointee p) with
               | clang.RecordType _ => AnonymousRecord
               | _ => AnonymousEnum
               end), dl)).
Proof.
  intros Hid Hp. cbn zeta.
  assert (Hname : clang.getName (getASTContext ctx d) = ""%string).
  { unfold clang.getName. by rewrite Hid. }
  assert (Htag : clang.dyn_cast_Tag (unwrap_pointee p) = Some d).
  { destruct Hp as [->| ->]; reflexivity. }
  split.
  - intros Hin. erewrite convert_Type_Ok; [reflexivity|].
    cbn [do_convert clang.getUnqualifiedDesugaredType].
    apply do_convert_Pointer_declared.
    rewrite <- Hname. apply declared_tag_Some; [done|]. by rewrite Hname.
  - intros Hout. apply convert_Type_Abort.
    cbn [do_convert clang.getUnqualifiedDesugaredType].
    unfold do_convert_Pointer. cbn zeta.
    rewrite declared_tag_None by (right; exists d; by rewrite Hname).
    apply bind_Abort.
    change (convert_QualType (S fuel) ctx (unwrap_pointee p) dl)
      with (convert_Type fuel ctx (clang.getTypePtr (unwrap_pointee p))
              (clang.getQualifiers (unwrap_pointee p)) dl).
    apply convert_Type_Abort.
    destruct Hp as [-> | ->]; cbn [clang.getTypePtr do_convert
      clang.getUnqualifiedDesugaredType].
    + unfold do_convert_Record. cbn zeta. by rewrite Hid.
    + unfold do_convert_Enum. cbn zeta. by rewrite Hid.
Qed.

Lemma pointer_to_anonymous_tag_witness :
  convert_Type 0 Samples.empty_name_declared
    (Samples.ptr_to (clang.RecordType 2)) Samples.none []
  = (Ok (hl.PointerType (hl.NamedType ""%string) false false),
     [(hl.PointerType (hl.NamedType ""%string) false false,
       Samples.ptr_to (clang.RecordType 2))])
  ∧ convert_Type 1 Samples.empty (Samples.ptr_to (clang.EnumType 2)) Samples.none []
    = (Abort AnonymousEnum, []).
Proof.
  split.
  - destruct (pointer_to_anonymous_tag 0 Samples.empty_name_declared
                (clang.mkQualType (clang.RecordType 2) Samples.none) Samples.none 2
                Samples.none []) as [Hdecl _];
      [reflexivity|left; reflexivity|].
    apply Hdecl. apply count_true. vm_compute. reflexivity.
  - destruct (pointer_to_anonymous_tag 0 Samples.empty
                (clang.mkQualType (clang.EnumType 2) Samples.none) Samples.none 2
                Samples.none []) as [_ Hundecl];
      [reflexivity|right; reflexivity|].
    apply Hundecl. apply count_false. vm_compute. reflexivity.
Defined.

(** X8 — A pointer to a named enum converts to a pointer to
    [NamedType name] whether or not the name is declared, as soon as one
    nested call is allowed.  The registry only decides what is recorded:
    an undeclared name goes through the general entry point, which leaves
    an entry keyed by [NamedType name]; a declared one adds the pointer's
    entry alone. *)
Theorem pointer_to_named_enum fuel ctx p pq d name q dl :
  unwrap_pointee p = clang.mkQualType (clang.EnumType d) pq →
  clang.getIdentifier (getASTContext ctx d) = Some name →
  let out := hl.PointerType (hl.NamedType name) (clang.hasConst q) (clang.hasVolatile q) in
  (convert_Type (S fuel) ctx (clang.PointerType p) q dl).1 = Ok out
  ∧ (name ∉ type_decls ctx →
     convert_Type (S fuel) ctx (clang.PointerType p) q dl
     = (Ok out,
        try_emplace out (clang.PointerType p)
          (try_emplace (hl.NamedType name) (clang.EnumType d) dl)))
  ∧ (name ∈ type_decls ctx →
     convert_Type (S fuel) ctx (clang.PointerType p) q dl
     = (Ok out, try_emplace out (clang.PointerType p) dl)).
Proof.
  intros Hp Hid. cbn zeta.
  assert (Hname : clang.getName (getASTContext ctx d) = name)
    by by apply getName_identifier.
  assert (Htag : clang.dyn_cast_Tag (unwrap_pointee p) = Some d) by by rewrite Hp.
  assert (Hdecl : name ∈ type_decls ctx →
     convert_Type (S fuel) ctx (clang.PointerType p) q dl
     = (Ok (hl.PointerType (hl.NamedType name) (clang.hasConst q) (clang.hasVolatile q)),
        try_emplace (hl.PointerType (hl.NamedType name) (clang.hasConst q)
                       (clang.hasVolatile q)) (clang.PointerType p) dl)).
  { intros Hin. erewrite convert_Type_Ok; [reflexivity|].
    cbn [do_convert clang.getUnqualifiedDesugaredType].
    apply do_convert_Pointer_declared.
    rewrite <- Hname. apply declared_tag_Some; [done|]. by rewrite Hname. }
  assert (Hundecl : name ∉ type_decls ctx →
     convert_Type (S fuel) ctx (clang.PointerType p) q dl
     = (Ok (hl.PointerType (hl.NamedType name) (clang.hasConst q) (clang.hasVolatile q)),
        try_emplace (hl.PointerType (hl.NamedType name) (clang.hasConst q)
                       (clang.hasVolatile q)) (clang.PointerType p)
          (try_emplace (hl.NamedType name) (clang.EnumType d) dl))).
  { intros Hout. erewrite convert_Type_Ok; [reflexivity|].
    cbn [do_convert clang.getUnqualifiedDesugaredType].
    unfold do_convert_Pointer. cbn zeta.
    rewrite declared_tag_None by (right; exists d; by rewrite Hname).
    erewrite bind_Ok; [reflexivity|].
    change (convert_QualType (S fuel) ctx (unwrap_pointee p) dl)
      with (convert_Type fuel ctx (clang.getTypePtr (unwrap_pointee p))
              (clang.getQualifiers (unwrap_pointee p)) dl).
    rewrite Hp. cbn [clang.getTypePtr clang.getQualifiers].
    erewrite convert_Type_Ok; [reflexivity|].
    cbn [do_convert clang.getUnqualifiedDesugaredType].
    unfold do_convert_Enum. cbn zeta. rewrite Hid, Hname. reflexivity. }
  split; [|by split].
  destruct (decide (name ∈ type_decls ctx)) as [Hin|Hout].
  - by rewrite (Hdecl Hin).
  - by rewrite (Hundecl Hout).
Qed.

Lemma pointer_to_named_enum_witness :
  convert_Type 1 Samples.empty (Samples.ptr_to (clang.EnumType 1)) Samples.none []
  = (Ok (hl.PointerType (hl.NamedType "State"%string) false false),
     [(hl.NamedType "State"%string, clang.EnumType 1);
      (hl.PointerType (hl.NamedType "State"%string) false false,
       Samples.ptr_to (clang.EnumType 1))])
  ∧ convert_Type 1 Samples.declared (Samples.ptr_to (clang.EnumType 1)) Samples.none []
    = (Ok (hl.PointerType (hl.NamedType "State"%string) false false),
       [(hl.PointerType (hl.NamedType "State"%string) false false,
         Samples.ptr_to (clang.EnumType 1))]).
Proof.
  split.
  - destruct (pointer_to_named_enum 0 Samples.empty
                (clang.mkQualType (clang.EnumType 1) Samples.none) Samples.none 1
                "State"%string Samples.none []) as (_ & Hundecl & _);
      [reflexivity|reflexivity|].
    apply Hundecl. apply count_false. vm_compute. reflexivity.
  - destruct (pointer_to_named_enum 0 Samples.declared
                (clang.mkQualType (clang.EnumType 1) Samples.none) Samples.none 1
                "State"%string Samples.none []) as (_ & _ & Hdecl);
      [reflexivity|reflexivity|].
    apply Hdecl. apply count_true. vm_compute. reflexivity.
Defined.

(** ** The loops, read backwards *)

Lemma convert_params_Ok_inv cv ps :
  ∀ acc dl args dl',
    convert_params cv ps acc dl = (Ok args, dl') →
    ∃ new, args = acc ++ new ∧ Forall2 (converts_to cv) ps new.
Proof.
  induction ps as [|p ps IH]; intros acc dl args dl' H; cbn in H.
  - unfold_M. injection H as <- _. exists []. by rewrite app_nil_r.
  - apply bind_Ok_inv in H as (a & dl1 & Ha & Hrest).
    apply IH in Hrest as (new & -> & HF).
    exists (a :: new). split; [by rewrite <- app_assoc|].
    constructor; [by exists dl, dl1|done].
Qed.

Lemma convert_fields_Ok_inv cv fs :
  ∀ acc dl irfs dl',
    convert_fields cv fs acc dl = (Ok irfs, dl') →
    ∃ new, irfs = acc ++ new
           ∧ Forall2 (λ f fi, fi.1 = clang.field_getName f
                              ∧ converts_to cv (clang.field_getType f) fi.2) fs new.
Proof.
  induction fs as [|f fs IH]; intros acc dl irfs dl' H; cbn in H.
  - unfold_M. injection H as <- _. exists []. by rewrite app_nil_r.
  - apply bind_Ok_inv in H as (a & dl1 & Ha & Hrest).
    apply IH in Hrest as (new & -> & HF).
    exists ((clang.field_getName f, a) :: new). split; [by rewrite <- app_assoc|].
    constructor; [|done]. split; [done|]. by exists dl, dl1.
Qed.

(** ** The shape of the produced node *)

Lemma converted_field_names cv fs new :
  Forall2 (λ f fi, fi.1 = clang.field_getName f
                   ∧ converts_to cv (clang.field_getType f) fi.2) fs new →
  new.*1 = clang.field_getName <$> fs.
Proof. induction 1 as [|f fi fs new [Hn _] _ IH]; [done|]. cbn. by f_equal. Qed.

Lemma do_convert_node_shape ctx cv ty q dl t dl' :
  do_convert ctx cv ty q dl = (Ok t, dl') →
  node_matches ctx (clang.getUnqualifiedDesugaredType ty) t = true
  ∧ hl.outer_quals t
    = if carries_quals (clang.getUnqualifiedDesugaredType ty)
      then Some (clang.hasConst q, clang.hasVolatile q) else None.
Proof.
  unfold do_convert.
  destruct (clang.getUnqualifiedDesugaredType ty) as [k|p|d|d|el n|r ps|r|?|?|?|];
    intros H; try discriminate.
  - rewrite do_convert_Builtin_pure in H. injection H as H _.
    destruct k; cbn in H; try discriminate; injection H as <-;
      (split; [vm_compute; reflexivity|reflexivity]).
  - unfold do_convert_Pointer in H. cbn zeta in H.
    apply bind_Ok_inv in H as (a & dl1 & Ha & H). unfold_M. injection H as <- _.
    split; [|done]. cbn [node_matches].
    destruct (declared_tag ctx (unwrap_pointee p)); [|done].
    injection Ha as <- _. by apply bool_decide_eq_true.
  - unfold do_convert_Record in H. cbn zeta in H. cbn [node_matches]. cbn zeta.
    destruct (clang.getIdentifier _); [|discriminate].
    destruct (count _ (type_defs ctx)); cbn [negb] in H.
    + unfold_M. injection H as <- _. split; [|done]. by apply bool_decide_eq_true.
    + destruct (count _ (type_decls ctx)); [|discriminate].
      apply bind_Ok_inv in H as (a & dl1 & Hloop & H). unfold_M. injection H as <- _.
      split; [|done]. cbn [negb andb]. apply bool_decide_eq_true.
      apply convert_fields_Ok_inv in Hloop as (new & -> & HF).
      cbn [app]. by eapply converted_field_names.
  - unfold do_convert_Enum in H. cbn zeta in H.
    destruct (clang.getIdentifier _); [|discriminate].
    unfold_M. injection H as <- _. split; [|done]. by apply bool_decide_eq_true.
  - apply bind_Ok_inv in H as (a & dl1 & _ & H). unfold_M. injection H as <- _.
    split; [|done]. cbn. by apply bool_decide_eq_true.
  - cbn [convert_FunctionType] in H.
    apply bind_Ok_inv in H as (args & dl1 & Hargs & H).
    apply bind_Ok_inv in H as (b & dl2 & _ & H). unfold_M. injection H as <- _.
    split; [|done]. cbn. apply bool_decide_eq_true.
    apply convert_params_Ok_inv in Hargs as (new & -> & HF).
    cbn. symmetry. by eapply Forall2_length.
  - cbn [convert_FunctionType] in H.
    apply bind_Ok_inv in H as (b & dl2 & _ & H). unfold_M. injection H as <- _.
    by split.
Qed.

(** X9 — The node a successful conversion returns is determined by the
    canonical type of the source.  A builtin gives void or bool for
    itself, the integer type of its own width class and unsignedness, or
    the floating type of its own class.  A pointer gives a pointer, to
    [NamedType name] when the pointee is a declared tag.  A record gives
    [NamedType] of its name when the name is defined, and otherwise a
    record type with the declared field names in order; an enum gives
    [NamedType] of its name.  A constant array gives an array of the same
    bound; a function gives a function type with one argument per
    parameter, none when there is no prototype.  The caller's qualifier
    bits are on the node exactly for non-void builtins, pointers and
    arrays; every other node has no slot for them. *)
Theorem produced_node_shape fuel ctx ty q dl t dl' :
  convert_Type fuel ctx ty q dl = (Ok t, dl') →
  node_matches ctx (clang.getUnqualifiedDesugaredType ty) t = true
  ∧ hl.outer_quals t
    = if carries_quals (clang.getUnqualifiedDesugaredType ty)
      then Some (clang.hasConst q, clang.hasVolatile q) else None.
Proof.
  intros H. apply convert_Type_Ok_inv in H as (dl1 & Hdo & _).
  by eapply do_convert_node_shape.
Qed.

Lemma produced_node_shape_witness :
  node_matches Scenarios.no_tags (clang.BuiltinType clang.ULong)
    (hl.LongType true true false) = true
  ∧ hl.outer_quals (hl.LongType true true false) = Some (true, false).
Proof.
  apply (produced_node_shape 0 Scenarios.no_tags
           (clang.TypedefType (clang.mkQualType (clang.BuiltinType clang.ULong)
                                 (quals_of false true)))
           (quals_of true false) [] _
           (convert_Type 0 Scenarios.no_tags
              (clang.TypedefType (clang.mkQualType (clang.BuiltinType clang.ULong)
                                    (quals_of false true)))
              (quals_of true false) []).2).
  vm_compute. reflexivity.
Defined.

(** The relation is exact on builtins: an integer node of another width
    class, or of the other signedness, is not allowed. *)
Example node_matches_is_exact :
  node_matches Scenarios.no_tags (clang.BuiltinType clang.Int)
    (hl.CharType false false false) = false
  ∧ node_matches Scenarios.no_tags (clang.BuiltinType clang.Int)
      (hl.IntType true false false) = false
  ∧ node_matches Scenarios.no_tags (clang.BuiltinType clang.Double)
      (hl.FloatType false false) = false.
Proof. vm_compute. by repeat split. Qed.

(** ** How the table evolves *)

Lemma try_emplace_extends k v dl : ∃ added, try_emplace k v dl = dl ++ added.
Proof.
  unfold try_emplace. case_bool_decide.
  - exists []. by rewrite app_nil_r.
  - by exists [(k, v)].
Qed.

Lemma emplace_all_extends log : ∀ dl, ∃ added, emplace_all log dl = dl ++ added.
Proof.
  induction log as [|[k v] log IH]; intros dl.
  - exists []. by rewrite app_nil_r.
  - rewrite emplace_all_cons. cbn [fst snd].
    destruct (try_emplace_extends k v dl) as (a1 & ->).
    destruct (IH (dl ++ a1)) as (a2 & ->).
    exists (a1 ++ a2). by rewrite app_assoc.
Qed.

Lemma emplace_all_keys_inv log : ∀ dl k,
  k ∈ dl_keys (emplace_all log dl) → k ∈ dl_keys dl ∨ k ∈ log.*1.
Proof.
  induction log as [|[k0 v0] log IH]; intros dl k Hk; [by left|].
  rewrite emplace_all_cons in Hk. apply IH in Hk as [Hk|Hk].
  - apply elem_of_try_emplace in Hk as [->|Hk]; [|by left].
    right. rewrite fmap_cons. by left.
  - right. rewrite fmap_cons. by right.
Qed.

Lemma dl_lookup_app k v dl added :
  dl_lookup k dl = Some v → dl_lookup k (dl ++ added) = Some v.
Proof.
  induction dl as [|[k0 v0] dl IH]; [done|]. cbn. by case_decide.
Qed.

(** X10 — The produced type does not depend on the table: two runs of
    the same conversion on different tables come back with the same type,
    stop with the same failure, or both need more depth. *)
Theorem outcome_independent_of_table fuel ctx ty q dl1 dl2 :
  (convert_Type fuel ctx ty q dl1).1 = (convert_Type fuel ctx ty q dl2).1.
Proof.
  destruct (replays_convert_Type fuel ctx ty q) as (r & log & Hrun & _).
  by rewrite !Hrun.
Qed.

(** X11 — A conversion only appends to the table, whatever its outcome:
    the old table is a prefix of the new one, a table without duplicated
    keys stays without duplicated keys, and the entry stored under a key is
    never replaced — the first source type recorded for a produced type
    stays. *)
Theorem table_grows_only fuel ctx ty q dl r dl' :
  convert_Type fuel ctx ty q dl = (r, dl') →
  (∃ added, dl' = dl ++ added)
  ∧ (NoDup (dl_keys dl) → NoDup (dl_keys dl'))
  ∧ (∀ k v, dl_lookup k dl = Some v → dl_lookup k dl' = Some v).
Proof.
  intros H.
  destruct (replays_convert_Type fuel ctx ty q) as (r0 & log & Hrun & _).
  rewrite Hrun in H. injection H as -> <-.
  destruct (emplace_all_extends log dl) as (added & Hadd).
  split; [by exists added|]. split.
  - apply emplace_all_NoDup.
  - intros k v Hk. rewrite Hadd. by apply dl_lookup_app.
Qed.

Lemma table_grows_only_witness :
  let dl := [(hl.IntType false false false, Samples.cint)] in
  dl_lookup (hl.IntType false false false)
    (convert_Type 1 Samples.empty (clang.BuiltinType clang.Int) Samples.none dl).2
  = Some Samples.cint.
Proof.
  cbn zeta.
  destruct (table_grows_only 1 Samples.empty (clang.BuiltinType clang.Int) Samples.none
              [(hl.IntType false false false, Samples.cint)]
              (convert_Type 1 Samples.empty (clang.BuiltinType clang.Int) Samples.none
                 [(hl.IntType false false false, Samples.cint)]).1
              (convert_Type 1 Samples.empty (clang.BuiltinType clang.Int) Samples.none
                 [(hl.IntType false false false, Samples.cint)]).2)
    as (_ & _ & Hkeep).
  - vm_compute. reflexivity.
  - apply Hkeep. vm_compute. reflexivity.
Defined.

(** X12 — No function type ever becomes a key of the table: if the table
    holds none before a conversion it holds none after it, whatever the
    outcome — also when function types are converted on the way, as the
    pointee of a function pointer or as a parameter. *)
Theorem no_function_keys fuel ctx ty q dl r dl' :
  convert_Type fuel ctx ty q dl = (r, dl') →
  Forall (λ k, hl.is_function k = false) (dl_keys dl) →
  Forall (λ k, hl.is_function k = false) (dl_keys dl').
Proof.
  intros H Hdl.
  destruct (replays_convert_Type fuel ctx ty q) as (r0 & log & Hrun & Hlog).
  rewrite Hrun in H. injection H as _ <-.
  apply Forall_forall. intros k Hk.
  apply emplace_all_keys_inv in Hk as [Hk|Hk].
  - by eapply (proj1 (Forall_forall _ _) Hdl).
  - apply list_elem_of_fmap in Hk as (e & -> & He).
    by eapply (proj1 (Forall_forall _ _) Hlog).
Qed.

Lemma no_function_keys_witness :
  Forall (λ k, hl.is_function k = false)
    (dl_keys (convert_Type 3 Scenarios.no_tags
                (Samples.ptr_to Scenarios.int_of_int_and_string) Samples.none []).2).
Proof.
  apply (no_function_keys 3 Scenarios.no_tags
           (Samples.ptr_to Scenarios.int_of_int_and_string) Samples.none []
           (convert_Type 3 Scenarios.no_tags
              (Samples.ptr_to Scenarios.int_of_int_and_string) Samples.none []).1).
  - vm_compute. reflexivity.
  - constructor.
Defined.

(** ** Arrays and function types *)

Lemma convert_QualType_keys_mono fuel ctx ty dl r dl' k :
  convert_QualType fuel ctx ty dl = (r, dl') → k ∈ dl_keys dl → k ∈ dl_keys dl'.
Proof.
  intros H Hk.
  destruct (replays_convert_QualType fuel ctx ty) as (r0 & log & Hrun & _).
  rewrite Hrun in H. injection H as _ <-. by apply emplace_all_mono.
Qed.

Lemma convert_QualType_recorded fuel ctx ty dl t dl' :
  convert_QualType fuel ctx ty dl = (Ok t, dl') →
  hl.is_function t = false → t ∈ dl_keys dl'.
Proof.
  destruct fuel as [|fuel]; [discriminate|].
  change (convert_QualType (S fuel) ctx ty dl)
    with (convert_Type fuel ctx (clang.getTypePtr ty) (clang.getQualifiers ty) dl).
  intros H Hfun. apply convert_Type_Ok_inv in H as (dl1 & Hdo & ->).
  rewrite <- (do_convert_is_function _ _ _ _ _ _ _ Hdo), Hfun.
  apply try_emplace_key.
Qed.

(** X13 — A constant array converts exactly when its element type does.
    The element is converted through the general entry point with the
    element's own qualifiers; the array node takes the source bound and the
    caller's qualifier bits; the element's failure is the array's failure.
    After a success both the element type (unless it is a function type)
    and the array type are keys of the table. *)
Theorem constant_array_conversion fuel ctx ty el n q dl :
  clang.getUnqualifiedDesugaredType ty = clang.ConstantArrayType el n →
  let element := convert_Type fuel ctx (clang.getTypePtr el) (clang.getQualifiers el) dl in
  (∀ t dl1, element = (Ok t, dl1) →
     let out := hl.ConstantArrayType t n (clang.hasConst q) (clang.hasVolatile q) in
     convert_Type (S fuel) ctx ty q dl = (Ok out, try_emplace out ty dl1)
     ∧ out ∈ dl_keys (try_emplace out ty dl1)
     ∧ (hl.is_function t = false → t ∈ dl_keys (try_emplace out ty dl1)))
  ∧ (∀ e dl1, element = (Abort e, dl1) →
       convert_Type (S fuel) ctx ty q dl = (Abort e, dl1))
  ∧ (∀ out dl', convert_Type (S fuel) ctx ty q dl = (Ok out, dl') →
       ∃ t dl1, element = (Ok t, dl1)).
Proof.
  intros Hty. cbn zeta.
  assert (Hfun : clang.isFunctionType ty = false).
  { unfold clang.isFunctionType. by rewrite Hty. }
  split; [|split].
  - intros t dl1 Hel.
    assert (Htop : convert_Type (S fuel) ctx ty q dl
                   = (Ok (hl.ConstantArrayType t n (clang.hasConst q) (clang.hasVolatile q)),
                      try_emplace
                        (hl.ConstantArrayType t n (clang.hasConst q) (clang.hasVolatile q))
                        ty dl1)).
    { erewrite convert_Type_Ok; [by rewrite Hfun|].
      unfold do_convert. rewrite Hty. unfold do_convert_ConstantArray.
      erewrite bind_Ok; [reflexivity|exact Hel]. }
    split; [done|]. split; [apply try_emplace_key|].
    intros Hnf. apply elem_of_try_emplace. right.
    by eapply (convert_QualType_recorded (S fuel) ctx el dl).
  - intros e dl1 Hel. apply convert_Type_Abort.
    unfold do_convert. rewrite Hty. unfold do_convert_ConstantArray.
    by apply bind_Abort.
  - intros out dl' H. apply convert_Type_Ok_inv in H as (dl1 & Hdo & _).
    unfold do_convert in Hdo. rewrite Hty in Hdo. unfold do_convert_ConstantArray in Hdo.
    apply bind_Ok_inv in Hdo as (t & dl2 & Hel & _). by exists t, dl2.
Qed.

Lemma constant_array_conversion_witness :
  convert_Type 1 Scenarios.no_tags Scenarios.double_4 (quals_of true false) []
  = (Ok (hl.ConstantArrayType (hl.DoubleType false false) 4 true false),
     [(hl.DoubleType false false, clang.BuiltinType clang.Double);
      (hl.ConstantArrayType (hl.DoubleType false false) 4 true false, Scenarios.double_4)]).
Proof.
  destruct (constant_array_conversion 0 Scenarios.no_tags Scenarios.double_4
              (clang.mkQualType (clang.BuiltinType clang.Double) Scenarios.none) 4
              (quals_of true false) []) as (Hok & _); [reflexivity|].
  destruct (Hok (hl.DoubleType false false)
              [(hl.DoubleType false false, clang.BuiltinType clang.Double)])
    as (Htop & _); [reflexivity|exact Htop].
Defined.

(** X14 — A function type.  The general entry point does on it exactly
    what the function overload does and adds no entry for it; the caller's
    qualifiers play no part at all, neither in the result nor in the table.
    A success is a function type with one argument per prototype parameter,
    each the conversion of that parameter in order, and the conversion of
    the return type as result; without a prototype there are no arguments. *)
Theorem function_type_conversion fuel ctx ty q dl :
  clang.isFunctionType ty = true →
  let cv := convert_QualType fuel ctx in
  convert_Type fuel ctx ty q dl
  = convert_FunctionType cv (clang.getUnqualifiedDesugaredType ty) dl
  ∧ (∀ q', convert_Type fuel ctx ty q' dl = convert_Type fuel ctx ty q dl)
  ∧ (∀ out dl', convert_Type fuel ctx ty q dl = (Ok out, dl') →
       ∃ args rty,
         out = hl.FunctionType args rty
         ∧ match clang.getUnqualifiedDesugaredType ty with
           | clang.FunctionProtoType result params =>
               Forall2 (converts_to cv) params args ∧ converts_to cv result rty
           | clang.FunctionNoProtoType result =>
               args = [] ∧ converts_to cv result rty
           | _ => False
           end).
Proof.
  intros Hfun. cbn zeta.
  assert (Htop : ∀ q', convert_Type fuel ctx ty q' dl
                       = convert_FunctionType (convert_QualType fuel ctx)
                           (clang.getUnqualifiedDesugaredType ty) dl).
  { intros q'. unfold convert_Type, convert, dl_aware_convert. rewrite Hfun.
    unfold clang.isFunctionType in Hfun. unfold do_convert. unfold_M.
    destruct (clang.getUnqualifiedDesugaredType ty) as [k|p|d|d|el n|r ps|r|?|?|?|];
      try discriminate;
      by destruct (convert_FunctionType _ _ dl) as [[t|e|] dl1]. }
  split; [apply Htop|]. split; [intros q'; by rewrite !Htop|].
  intros out dl' H. rewrite Htop in H.
  unfold clang.isFunctionType in Hfun.
  destruct (clang.getUnqualifiedDesugaredType ty) as [k|p|d|d|el n|r ps|r|?|?|?|];
    try discriminate; cbn [convert_FunctionType] in H.
  - apply bind_Ok_inv in H as (args & dl1 & Hargs & H).
    apply bind_Ok_inv in H as (rty & dl2 & Hr & H). unfold_M. injection H as <- _.
    apply convert_params_Ok_inv in Hargs as (new & -> & HF).
    exists new, rty. split; [done|]. split; [done|]. by exists dl1, dl2.
  - apply bind_Ok_inv in H as (rty & dl2 & Hr & H). unfold_M. injection H as <- _.
    exists [], rty. split; [done|]. split; [done|]. by exists dl, dl2.
Qed.

Lemma function_type_conversion_witness :
  convert_Type 2 Scenarios.no_tags
    (clang.TypedefType (clang.mkQualType Scenarios.int_of_int_and_string Scenarios.none))
    (quals_of true true) []
  = convert_Type 2 Scenarios.no_tags
      (clang.TypedefType (clang.mkQualType Scenarios.int_of_int_and_string Scenarios.none))
      Scenarios.none [].
Proof.
  destruct (function_type_conversion 2 Scenarios.no_tags
              (clang.TypedefType
                 (clang.mkQualType Scenarios.int_of_int_and_string Scenarios.none))
              Scenarios.none []) as (_ & Hq & _); [reflexivity|].
  apply Hq.
Defined.

(** ** The depth bound *)

Lemma refines_refl {A} (m : M A) : refines m m.
Proof. by intros dl r dl' H _. Qed.

Lemma refines_bind {A B} (m1 m2 : M A) (f1 f2 : A → M B) :
  refines m1 m2 → (∀ a, refines (f1 a) (f2 a)) → refines (m1 ≫= f1) (m2 ≫= f2).
Proof.
  intros Hm Hf dl r dl' H Hr. unfold mbind, M_bind in *.
  destruct (m1 dl) as [[a|e|] dl1] eqn:E1.
  - rewrite (Hm dl (Ok a) dl1 E1) by done. by apply Hf.
  - injection H as <- <-. by rewrite (Hm dl (Abort e) dl1 E1).
  - injection H as <- <-. done.
Qed.

#[local] Hint Resolve refines_refl refines_bind : replays.

Section Refinement.

Variable ctx : TranslationContext.
Variables cv1 cv2 : clang.QualType → M hl.Type_.
Hypothesis cv_refines : ∀ ty, refines (cv1 ty) (cv2 ty).

Lemma refines_convert_fields fs :
  ∀ acc, refines (convert_fields cv1 fs acc) (convert_fields cv2 fs acc).
Proof. induction fs as [|f fs IH]; intros acc; cbn; auto with replays. Qed.

Lemma refines_convert_params ps :
  ∀ acc, refines (convert_params cv1 ps acc) (convert_params cv2 ps acc).
Proof. induction ps as [|p ps IH]; intros acc; cbn; auto with replays. Qed.

Lemma refines_do_convert ty q : refines (do_convert ctx cv1 ty q) (do_convert ctx cv2 ty q).
Proof.
  unfold do_convert.
  destruct (clang.getUnqualifiedDesugaredType ty) as [k|p|d|d|el n|r ps|r|?|?|?|];
    auto with replays.
  - unfold do_convert_Pointer. cbn zeta.
    destruct (declared_tag ctx (unwrap_pointee p)); auto with replays.
  - unfold do_convert_Record. cbn zeta.
    destruct (clang.getIdentifier _); auto with replays.
    destruct (negb _); auto with replays.
    destruct (count _ (type_decls ctx)); auto with replays.
    apply refines_bind; [apply refines_convert_fields|auto with replays].
  - unfold do_convert_ConstantArray. auto with replays.
  - cbn [convert_FunctionType].
    apply refines_bind; [apply refines_convert_params|auto with replays].
  - cbn [convert_FunctionType]. auto with replays.
Qed.

Lemma refines_convert ty q : refines (convert ctx cv1 ty q) (convert ctx cv2 ty q).
Proof.
  unfold convert, dl_aware_convert.
  apply refines_bind; [apply refines_do_convert|auto with replays].
Qed.

End Refinement.

Lemma refines_convert_QualType_S fuel ctx :
  ∀ ty, refines (convert_QualType fuel ctx ty) (convert_QualType (S fuel) ctx ty).
Proof.
  induction fuel as [|fuel IH]; intros ty.
  - intros dl r dl' H Hr. cbn in H. unfold out_of_fuel in H. injection H as <- _. done.
  - change (convert_QualType (S (S fuel)) ctx ty)
      with (convert ctx (convert_QualType (S fuel) ctx)
              (clang.getTypePtr ty) (clang.getQualifiers ty)).
    change (convert_QualType (S fuel) ctx ty)
      with (convert ctx (convert_QualType fuel ctx)
              (clang.getTypePtr ty) (clang.getQualifiers ty)).
    by apply refines_convert.
Qed.

Lemma refines_convert_QualType_le n m ctx :
  n ≤ m → ∀ ty, refines (convert_QualType n ctx ty) (convert_QualType m ctx ty).
Proof.
  induction 1 as [|m _ IH]; intros ty; [apply refines_refl|].
  intros dl r dl' H Hr. apply refines_convert_QualType_S; [|done]. by apply IH.
Qed.

(** The depth bound only decides whether a run is cut.  A
    conversion that comes back at some depth — with a type or with a
    failure — comes back with the same outcome and the same table at every
    larger depth. *)
Lemma definite_outcome_is_stable n m ctx ty q dl r dl' :
  n ≤ m →
  convert_Type n ctx ty q dl = (r, dl') →
  r ≠ OutOfFuel →
  convert_Type m ctx ty q dl = (r, dl').
Proof.
  intros Hle H Hr. unfold convert_Type in *.
  eapply refines_convert; [|exact H|exact Hr].
  by apply refines_convert_QualType_le.
Qed.

(** ** Records: what is recorded, and where a failure comes from *)

Lemma convert_fields_recorded fuel ctx fs :
  ∀ acc dl irfs dl',
    convert_fields (convert_QualType fuel ctx) fs acc dl = (Ok irfs, dl') →
    (∀ k, k ∈ dl_keys dl → k ∈ dl_keys dl')
    ∧ ∃ new, irfs = acc ++ new
             ∧ new.*1 = clang.field_getName <$> fs
             ∧ Forall (λ fi, hl.is_function fi.2 = false → fi.2 ∈ dl_keys dl') new.
Proof.
  induction fs as [|f fs IH]; intros acc dl irfs dl' H; cbn in H.
  - unfold_M. injection H as <- <-. split; [done|]. exists []. by rewrite app_nil_r.
  - apply bind_Ok_inv in H as (a & dl1 & Ha & Hrest).
    apply IH in Hrest as (Hmono & new & -> & Hnames & Hrec).
    split.
    + intros k Hk. apply Hmono. by eapply convert_QualType_keys_mono.
    + exists ((clang.field_getName f, a) :: new).
      split; [by rewrite <- app_assoc|]. split; [cbn; by f_equal|].
      constructor; [|done]. cbn. intros Hnf. apply Hmono.
      by eapply convert_QualType_recorded.
Qed.

Lemma convert_fields_Abort_inv cv fs :
  ∀ acc dl e dl',
    convert_fields cv fs acc dl = (Abort e, dl') →
    Exists (λ f, ∃ dl0 dl1, cv (clang.field_getType f) dl0 = (Abort e, dl1)) fs.
Proof.
  induction fs as [|f fs IH]; intros acc dl e dl' H; cbn in H.
  - discriminate.
  - unfold mbind, M_bind in H.
    destruct (cv (clang.field_getType f) dl) as [[a|e0|] dl1] eqn:E.
    + apply Exists_cons_tl. by eapply IH.
    + injection H as -> _. apply Exists_cons_hd. by exists dl, dl1.
    + discriminate.
Qed.

(** X16 — When a conversion returns a record type, the source was a
    record; the produced fields carry the declared field names in
    declaration order; and the record type and every field type that is not
    a function type are keys of the table afterwards. *)
Theorem record_fields_recorded fuel ctx ty q dl irfs dl' :
  convert_Type fuel ctx ty q dl = (Ok (hl.RecordType irfs), dl') →
  (∃ d, clang.getUnqualifiedDesugaredType ty = clang.RecordType d
        ∧ irfs.*1 = clang.field_getName <$> clang.fields (getASTContext ctx d))
  ∧ hl.RecordType irfs ∈ dl_keys dl'
  ∧ Forall (λ fi, hl.is_function fi.2 = false → fi.2 ∈ dl_keys dl') irfs.
Proof.
  intros H. apply convert_Type_Ok_inv in H as (dl1 & Hdo & Hdl').
  pose proof (do_convert_node_shape _ _ _ _ _ _ _ Hdo) as [Hshape _].
  unfold do_convert in Hdo. unfold clang.isFunctionType in Hdl'.
  destruct (clang.getUnqualifiedDesugaredType ty) as [k|p|d|d|el n|r ps|r|?|?|?|];
    try discriminate.
  unfold do_convert_Record in Hdo. cbn zeta in Hdo.
  destruct (clang.getIdentifier _); [|discriminate].
  destruct (negb _); [|discriminate].
  destruct (count _ (type_decls ctx)); [|discriminate].
  apply bind_Ok_inv in Hdo as (fs & dl2 & Hloop & Hret).
  unfold_M. injection Hret as -> ->.
  apply convert_fields_recorded in Hloop as (_ & new & -> & Hnames & Hrec).
  cbn [app] in *. subst dl'. split; [by exists d|].
  split; [apply try_emplace_key|].
  eapply Forall_impl; [exact Hrec|]. cbn beta. intros fi Hfi Hnf.
  apply elem_of_try_emplace. right. by apply Hfi.
Qed.

Lemma record_fields_recorded_witness :
  let dl' := (convert_Type 2 Samples.declared (clang.RecordType 0) Samples.none []).2 in
  Forall (λ fi : string * hl.Type_, hl.is_function fi.2 = false → fi.2 ∈ dl_keys dl')
    [("z"%string, hl.IntType false false false);
     ("state"%string, hl.NamedType "State"%string)].
Proof.
  cbn zeta.
  destruct (record_fields_recorded 2 Samples.declared (clang.RecordType 0) Samples.none []
              [("z"%string, hl.IntType false false false);
               ("state"%string, hl.NamedType "State"%string)]
              (convert_Type 2 Samples.declared (clang.RecordType 0) Samples.none []).2)
    as (_ & _ & Hrec).
  - vm_compute. reflexivity.
  - exact Hrec.
Defined.

(** X17 — A named record that is declared and not yet defined.  When its
    conversion stops with a failure, that failure is the failure of the
    conversion of one of its fields; a record without fields — a forward
    declaration — therefore always converts, to the empty record type, at
    any depth. *)
Theorem record_failure_is_a_field_failure fuel ctx d name q dl :
  let decl := getASTContext ctx d in
  clang.getIdentifier decl = Some name →
  name ∉ type_defs ctx →
  name ∈ type_decls ctx →
  (∀ e dl', convert_Type (S fuel) ctx (clang.RecordType d) q dl = (Abort e, dl') →
     Exists (λ f, ∃ dl0 dl1,
                convert_Type fuel ctx (clang.getTypePtr (clang.field_getType f))
                  (clang.getQualifiers (clang.field_getType f)) dl0
                = (Abort e, dl1))
       (clang.fields decl))
  ∧ (clang.fields decl = [] →
     ∀ n, convert_Type n ctx (clang.RecordType d) q dl
          = (Ok (hl.RecordType []), try_emplace (hl.RecordType []) (clang.RecordType d) dl)).
Proof.
  cbn zeta. intros Hid Hout Hin. split.
  - intros e dl' H. unfold convert_Type, convert, dl_aware_convert in H.
    unfold mbind at 1, M_bind at 1 in H.
    destruct (do_convert ctx (convert_QualType (S fuel) ctx) (clang.RecordType d) q dl)
      as [[t|e0|] dl1] eqn:Hdo.
    + destruct (negb _); unfold_M; discriminate.
    + injection H as -> _.
      cbn [do_convert clang.getUnqualifiedDesugaredType] in Hdo.
      erewrite do_convert_Record_expand in Hdo by done.
      unfold mbind, M_bind in Hdo.
      destruct (convert_fields _ _ [] dl) as [[fs|e1|] dl2] eqn:Hloop;
        unfold_M; try discriminate.
      injection Hdo as -> _.
      exact (convert_fields_Abort_inv (convert_QualType (S fuel) ctx) _ _ _ _ _ Hloop).
    + discriminate.
  - intros Hnil n. erewrite convert_Type_Ok; [reflexivity|].
    cbn [do_convert clang.getUnqualifiedDesugaredType].
    erewrite do_convert_Record_expand by done. by rewrite Hnil.
Qed.

Lemma record_failure_is_a_field_failure_witness :
  convert_Type 0 Samples.declared (clang.RecordType 3) Samples.none []
  = (Ok (hl.RecordType []), [(hl.RecordType [], clang.RecordType 3)]).
Proof.
  destruct (record_failure_is_a_field_failure 0 Samples.declared 3 "Opaque"%string
              Samples.none []) as (_ & Hempty).
  - reflexivity.
  - apply count_false. vm_compute. reflexivity.
  - apply count_true. vm_compute. reflexivity.
  - apply (Hempty eq_refl 0).
Defined.

(** ** Pointer chains *)

Lemma pointers_to_is_pointer levels base :
  (∃ p, clang.getTypePtr base = clang.PointerType p) →
  ∃ p, clang.getTypePtr (pointers_to levels base) = clang.PointerType p.
Proof. intros Hbase. destruct levels as [|qs rest]; [done|]. cbn. eauto. Qed.

(** X18 — Recursion breaking works through any number of pointer
    levels.  A chain of pointers that ends in a pointer to a declared
    record converts when one nested call per level is allowed: every level
    becomes a pointer with its own qualifier bits and the innermost pointee
    is [NamedType name]; the record itself is never visited, so the chain
    converts even where the record's own conversion would not. *)
Theorem pointer_chain_to_declared_tag ctx d levels base dl :
  points_to_tag d base →
  clang.getName (getASTContext ctx d) ∈ type_decls ctx →
  let inner := hl.PointerType (hl.NamedType (clang.getName (getASTContext ctx d)))
                 (clang.hasConst (clang.getQualifiers base))
                 (clang.hasVolatile (clang.getQualifiers base)) in
  (convert_QualType (S (length levels)) ctx (pointers_to levels base) dl).1
  = Ok (hl_pointers_to levels inner).
Proof.
  intros Hbase Hin. cbn zeta. revert dl.
  induction levels as [|qs rest IH]; intros dl.
  - cbn [pointers_to hl_pointers_to length].
    by rewrite (convert_QualType_points_to_tag 0 ctx d base dl Hbase Hin).
  - cbn [pointers_to hl_pointers_to length].
    change (convert_QualType (S (S (length rest))) ctx
              (clang.mkQualType (clang.PointerType (pointers_to rest base)) qs) dl)
      with (convert ctx (convert_QualType (S (length rest)) ctx)
              (clang.PointerType (pointers_to rest base)) qs dl).
    rewrite convert_outcome.
    cbn [do_convert clang.getUnqualifiedDesugaredType].
    unfold do_convert_Pointer. cbn zeta.
    destruct (pointers_to_is_pointer rest base) as (p & Hp).
    { destruct Hbase as (qp & pq & Hb & _). eauto. }
    assert (Hunwrap : unwrap_pointee (pointers_to rest base) = pointers_to rest base).
    { unfold unwrap_pointee, clang.dyn_cast_Elaborated. by rewrite Hp. }
    rewrite Hunwrap.
    rewrite declared_tag_None
      by (left; unfold clang.dyn_cast_Tag; by rewrite Hp).
    specialize (IH dl). unfold mbind, M_bind.
    destruct (convert_QualType (S (length rest)) ctx (pointers_to rest base) dl)
      as [[t|e|] dl1]; cbn [fst] in IH; try discriminate.
    injection IH as ->. reflexivity.
Qed.

Lemma pointer_chain_to_declared_tag_witness :
  (convert_QualType 3 TypedefNode.declared
     (pointers_to [quals_of true false; quals_of false false]
        (clang.mkQualType (Samples.ptr_to TypedefNode.S_type) (quals_of false true)))
     []).1
  = Ok (hl.PointerType
          (hl.PointerType
             (hl.PointerType (hl.NamedType "S"%string) false true) false false)
          true false).
Proof.
  apply (pointer_chain_to_declared_tag TypedefNode.declared 0
           [quals_of true false; quals_of false false]
           (clang.mkQualType (Samples.ptr_to TypedefNode.S_type) (quals_of false true)) []).
  - eexists _, _. split; [reflexivity|]. left. reflexivity.
  - apply count_true. vm_compute. reflexivity.
Defined.
